(** * Submission Evaluation API

    A shallow embedding of the evaluation backend: the scoring loop and the
    score aggregation of [app.py], the document-store operations behind the
    HTTP endpoints, and the nonce, role and token helpers of [onchain.py].

    Scores are Python floats, that is IEEE binary64 values; they are
    embedded as Rocq's primitive floats, whose operations are the same
    binary64 operations.  Collections of the document store are lists of
    typed records in insertion order. *)

From Stdlib Require Import ZArith String List Bool.
From Stdlib Require Import PrimFloat FloatOps FloatAxioms SpecFloat Uint63.
From stdpp Require Import gmap strings list fin_maps.

Local Open Scope Z_scope.

(* Decimal literals such as 0.8 denote the nearest binary64 value, as they
   do in Python. *)
#[global] Set Warnings "-inexact-float".

(** ** Exceptions and results *)

(** What a request handler can raise: FastAPI's [HTTPException], Python's
    [ZeroDivisionError] (float division by zero), pydantic's
    [ValidationError] (a required field is absent) and [ValueError]. *)
Inductive Exception :=
| HTTPException (status_code : Z) (detail : string)
| ZeroDivisionError
| ValidationError (field : string)
| ValueError.

Inductive Result (A : Type) :=
| Ok (a : A)
| Raise (e : Exception).
Arguments Ok {A} a.
Arguments Raise {A} e.

#[global] Instance Result_ret : MRet Result := fun _ a => Ok a.
#[global] Instance Result_bind : MBind Result := fun _ _ f r =>
  match r with
  | Ok a => f a
  | Raise e => Raise e
  end.

(** ** Python float arithmetic *)

Module PyFloat.

(** [num / den] rounded to the nearest integer, ties to the even one
    ([den] positive). *)
Definition round_half_even (num den : Z) : Z :=
  let q := num / den in
  let r := num mod den in
  match 2 * r ?= den with
  | Lt => q
  | Gt => q + 1
  | Eq => if Z.even q then q else q + 1
  end.

(** [round(x, 4)].  CPython rounds the exact binary value of [x] to four
    decimals, ties to even, and returns the double nearest to that
    decimal; NaN and the infinities round to themselves.  For
    [|x| < 2^39] the decimal is [n / 10^4] with [n < 2^53], so [n] and
    [10^4] are doubles and the binary64 quotient is the nearest double.
    From [2^39] on, neighbouring doubles are more than [10^-4] apart and
    the nearest double to the rounded decimal is [x] itself. *)
Definition round4 (x : float) : float :=
  match Prim2SF x with
  | S754_finite s m e =>
      if 39 <=? Z.log2 (Z.pos m) + e then x
      else
        let n := if 0 <=? e then Z.pos m * 2 ^ e * 10000
                 else round_half_even (Z.pos m * 10000) (2 ^ (- e)) in
        let r := (of_uint63 (Uint63.of_Z n) / 10000)%float in
        if s then (- r)%float else r
  | _ => x
  end.

(** [x / y] on floats: Python raises when the divisor is zero (of either
    sign); a NaN divisor is not zero. *)
Definition truediv (x y : float) : Result float :=
  if (y =? 0)%float then Raise ZeroDivisionError else Ok (x / y)%float.

(** [sum(xs)]: the items are added from the left to the integer [0],
    which the first addition converts to [0.0].  (CPython 3.12 and later
    carry a compensation term along; it leaves the sum of one or two
    items as it is here.) *)
Definition sum (xs : list float) : float :=
  fold_left PrimFloat.add xs 0%float.

(** [len(xs)] as the float a true division converts it to. *)
Definition of_len (n : nat) : float :=
  of_uint63 (Uint63.of_Z (Z.of_nat n)).

End PyFloat.

(** ** Scoring configuration ([app.py], lines 31-34) *)

Record Config := {
  MAX_SCORE : float;
  AGREE_SCORE : float;
  DISAGREE_SCORE : float;
  NEITHER_SCORE : float
}.

(** The configuration of the specification's worked example. *)
Definition example_config : Config :=
  {| MAX_SCORE := 4; AGREE_SCORE := 1; DISAGREE_SCORE := 0;
     NEITHER_SCORE := 0.5 |}.

(** ** Request payloads ([schemas.py]) *)

Record EvaluationAnswerCreate := {
  eac_question_id : string;
  eac_answer : string
}.

(** ** The scoring loop ([create_evaluation_with_answers], lines 351-363) *)

Section Scoring.
Context (cfg : Config).

(** One turn of the loop over [evaluation_data.answers]. *)
Definition score_step (evaluation_score : float)
    (answer : EvaluationAnswerCreate) : float :=
  if String.eqb (eac_answer answer) "1" then
    (evaluation_score + AGREE_SCORE cfg)%float
  else if String.eqb (eac_answer answer) "2" then
    (evaluation_score + DISAGREE_SCORE cfg)%float
  else if String.eqb (eac_answer answer) "3" then
    (evaluation_score + NEITHER_SCORE cfg)%float
  else 0%float.

(** The running total after the loop.  It starts as the integer [0];
    adding a float to it, or dividing it by one, first converts it to
    [0.0]. *)
Definition evaluation_score (answers : list EvaluationAnswerCreate) : float :=
  fold_left score_step answers 0%float.

(** [calculated_score = round(evaluation_score / MAX_SCORE, 4)]. *)
Definition calculated_score (answers : list EvaluationAnswerCreate)
    : Result float :=
  q ← PyFloat.truediv (evaluation_score answers) (MAX_SCORE cfg);
  Ok (PyFloat.round4 q).

End Scoring.

(** The three answer codes the loop gives a weight to. *)
Definition valid_code (code : string) : bool :=
  String.eqb code "1" || String.eqb code "2" || String.eqb code "3".

(** The weight of an answer code, as the specification words it. *)
Definition weight (cfg : Config) (code : string) : float :=
  if String.eqb code "1" then AGREE_SCORE cfg
  else if String.eqb code "2" then DISAGREE_SCORE cfg
  else if String.eqb code "3" then NEITHER_SCORE cfg
  else 0%float.

Definition answer_of (code : string) : EvaluationAnswerCreate :=
  {| eac_question_id := "q"; eac_answer := code |}.

(** ** Documents of the store ([models.py])

    A document is the dictionary a model dumps to, so every key of the
    model is present.  [datetime] values are seconds on the UTC clock; the
    store keeps a date to the millisecond and without its timezone, a loss
    that is not represented here, so no property below compares the date
    of a creation response with a date read back. *)

Definition datetime := Z.

(** A category document.  [create_category] dumps [schemas.CategoryCreate],
    which has no [evaluators]; documents that carry the list come from
    outside the API. *)
Record CategoryDoc := {
  cat_name : string;
  cat_description : option string;
  cat_slug : string;
  cat_evaluators : option (list string)
}.

(** A question document: the store's own key [_id] and the fields of
    [models.Question]. *)
Record QuestionDoc := {
  q_oid : string;
  q_id : string;
  q_project_statement : string;
  q_project_description : option string;
  q_evaluator_statement : string;
  q_evaluator_description : option string;
  q_section : string;
  q_order : Z
}.

(** [SubmissionAnswer] and [EvaluationAnswer] dump to the same three keys. *)
Record AnswerDoc := {
  a_id : string;
  a_question_id : string;
  a_answer : string
}.

Record EvaluationDoc := {
  ev_id : string;
  ev_evaluator : string;
  ev_submission_id : string;
  ev_date_completed : option datetime;
  ev_score : option float;
  ev_answers : list AnswerDoc
}.

Record SubmissionDoc := {
  sub_id : string;
  sub_project_id : string;
  sub_project_name : string;
  sub_karma_gap_id : string;
  sub_date_completed : option datetime;
  sub_score : option float;
  sub_answers : list AnswerDoc;
  sub_evaluations : list EvaluationDoc;
  sub_category : CategoryDoc;
  sub_owner : string
}.

(** The four collections ([db.py]). *)
Record Store := {
  categories : list CategoryDoc;
  submissions : list SubmissionDoc;
  questions : list QuestionDoc;
  evaluations : list EvaluationDoc
}.

Definition set_categories (st : Store) (cs : list CategoryDoc) : Store :=
  {| categories := cs; submissions := submissions st;
     questions := questions st; evaluations := evaluations st |}.
Definition set_submissions (st : Store) (ss : list SubmissionDoc) : Store :=
  {| categories := categories st; submissions := ss;
     questions := questions st; evaluations := evaluations st |}.
Definition set_evaluations (st : Store) (es : list EvaluationDoc) : Store :=
  {| categories := categories st; submissions := submissions st;
     questions := questions st; evaluations := es |}.

(** *** Collection primitives of the driver *)

(** [find_one(filter)]: the first matching document. *)
Definition find_one {A} (P : A -> bool) (coll : list A) : option A :=
  List.find P coll.

(** [insert_one(doc)]: the document goes to the end of the collection. *)
Definition insert_one {A} (doc : A) (coll : list A) : list A :=
  coll ++ [doc].

(** [update_one(filter, {"$set": ...})]: the first matching document is
    updated, the others are left alone. *)
Fixpoint update_one {A} (P : A -> bool) (set : A -> A) (coll : list A)
    : list A :=
  match coll with
  | [] => []
  | doc :: rest =>
      if P doc then set doc :: rest else doc :: update_one P set rest
  end.

(** The [$set] of [create_evaluation_with_answers]: two keys. *)
Definition set_evaluations_score (evs : list EvaluationDoc) (score : float)
    (s : SubmissionDoc) : SubmissionDoc :=
  {| sub_id := sub_id s; sub_project_id := sub_project_id s;
     sub_project_name := sub_project_name s;
     sub_karma_gap_id := sub_karma_gap_id s;
     sub_date_completed := sub_date_completed s;
     sub_score := Some score;
     sub_answers := sub_answers s;
     sub_evaluations := evs;
     sub_category := sub_category s;
     sub_owner := sub_owner s |}.

(** ** Requests and responses ([schemas.py]) *)

Record CategoryCreate := {
  cc_name : string;
  cc_description : option string;
  cc_slug : string
}.

Record CategoryRead := {
  cr_name : string;
  cr_description : option string;
  cr_slug : string
}.

(** [SubmissionAnswerCreate] has the two fields of
    [EvaluationAnswerCreate]. *)
Record SubmissionCreate := {
  sc_project_id : string;
  sc_project_name : string;
  sc_karma_gap_id : string;
  sc_answers : list EvaluationAnswerCreate;
  sc_category : string
}.

Record EvaluationCreate := {
  ec_evaluator : string;
  ec_submission_id : string;
  ec_answers : list EvaluationAnswerCreate
}.

(** [SubmissionAnswerRead] and [EvaluationAnswerRead]: an answer with the
    question it refers to ([QuestionRead] has the fields of the question
    document). *)
Record AnswerRead := {
  ar_id : string;
  ar_question_id : string;
  ar_answer : string;
  ar_question : QuestionDoc
}.

Record SubmissionRead := {
  sr_id : string;
  sr_project_id : string;
  sr_project_name : string;
  sr_karma_gap_id : string;
  sr_date_completed : option datetime;
  sr_score : option float;
  sr_category : CategoryRead;
  sr_last_evaluation_date : option datetime;
  sr_evaluation_count : nat
}.

(** The project registry's answer, opaque here: a value of [KarmaData] is
    a reply that [schemas.KarmaData] accepts ([project_details] a
    dictionary, [updates] a list of dictionaries). *)
Definition KarmaData := string.

Record SubmissionWithAnswersRead := {
  swa_base : SubmissionRead;
  swa_answers : list AnswerRead;
  swa_karma_data : option KarmaData
}.

Record CategoryReadWithSubmissions := {
  crs_base : CategoryRead;
  crs_submissions : list SubmissionRead
}.

Record EvaluationWithAnswersRead := {
  er_id : string;
  er_date_completed : option datetime;
  er_evaluator : string;
  er_submission_id : string;
  er_score : option float;
  er_answers : list AnswerRead
}.

(** What a request reads from outside the store: the values
    [uuid.uuid4()] returns, in call order, the clock, and the project
    registry ([None] when the fetch raises). *)
Record Env := {
  uuid4 : nat -> string;
  utcnow : datetime;
  get_karma_data : string -> option KarmaData
}.

Definition or_404 {A} (found : option A) (detail : string) : Result A :=
  match found with
  | Some doc => Ok doc
  | None => Raise (HTTPException 404 detail)
  end.

(** ** Model constructors ([models.py])

    Building a pydantic model raises [ValidationError] when a required
    field is not given. *)

(** [models.Category]: [evaluators] is required. *)
Record Category := {
  c_name : string;
  c_description : option string;
  c_slug : string;
  c_evaluators : list string
}.

(** [Category] built from the keys of a category document. *)
Definition Category_init (doc : CategoryDoc) : Result Category :=
  match cat_evaluators doc with
  | None => Raise (ValidationError "evaluators")
  | Some evaluators =>
      Ok {| c_name := cat_name doc; c_description := cat_description doc;
            c_slug := cat_slug doc; c_evaluators := evaluators |}
  end.

(** A [CategoryRead] read off a [Category] model, and off a document. *)
Definition CategoryRead_of_model (c : Category) : CategoryRead :=
  {| cr_name := c_name c; cr_description := c_description c;
     cr_slug := c_slug c |}.
Definition CategoryRead_of_doc (doc : CategoryDoc) : CategoryRead :=
  {| cr_name := cat_name doc; cr_description := cat_description doc;
     cr_slug := cat_slug doc |}.

(** [SubmissionAnswer(id=, question_id=, answer=)]: [answer] has
    [max_length=1800]. *)
Definition SubmissionAnswer_init (id question_id answer : string)
    : Result AnswerDoc :=
  if (1800 <? String.length answer)%nat then Raise (ValidationError "answer")
  else Ok {| a_id := id; a_question_id := question_id; a_answer := answer |}.

(** [Submission(...)]: [owner] is a required field of [models.Submission]
    (line 99); [None] stands for a call that does not pass it. *)
Definition Submission_init (id : string) (date_completed : option datetime)
    (project_id project_name karma_gap_id : string) (score : option float)
    (answers : list AnswerDoc) (evals : list EvaluationDoc)
    (category : CategoryDoc) (owner : option string) : Result SubmissionDoc :=
  match owner with
  | None => Raise (ValidationError "owner")
  | Some owner =>
      Ok {| sub_id := id; sub_project_id := project_id;
            sub_project_name := project_name;
            sub_karma_gap_id := karma_gap_id;
            sub_date_completed := date_completed; sub_score := score;
            sub_answers := answers; sub_evaluations := evals;
            sub_category := category; sub_owner := owner |}
  end.

(** ** Joining answers with the question catalog *)

(** The [questions_dict] the handlers build: the questions whose [key] is
    [$in] [question_ids], in collection order, each stored under its key
    (a later question replaces an earlier one with the same key). *)
Definition questions_dict (key : QuestionDoc -> string)
    (catalog : list QuestionDoc) (question_ids : list string)
    : gmap string QuestionDoc :=
  fold_left (fun d question => <[key question := question]> d)
    (List.filter
       (fun question => existsb (String.eqb (key question)) question_ids)
       catalog)
    ∅.

(** The loop that builds [answers_with_questions]: an answer is appended
    only [if question]. *)
Definition answers_with_questions (d : gmap string QuestionDoc)
    (answers : list AnswerDoc) : list AnswerRead :=
  omap (fun answer =>
          match d !! a_question_id answer with
          | Some question =>
              Some {| ar_id := a_id answer;
                      ar_question_id := a_question_id answer;
                      ar_answer := a_answer answer;
                      ar_question := question |}
          | None => None
          end) answers.

(** The answer an [AnswerRead] was built from. *)
Definition answer_of_read (r : AnswerRead) : AnswerDoc :=
  {| a_id := ar_id r; a_question_id := ar_question_id r;
     a_answer := ar_answer r |}.

(** ** Evaluation statistics of a submission *)

(** The evaluations of [find({"submission_id": ...})]. *)
Definition evaluations_of (st : Store) (submission_id : string)
    : list EvaluationDoc :=
  List.filter (fun e => String.eqb (ev_submission_id e) submission_id)
    (evaluations st).

(** The later of two [date_completed] values; null sorts before any date. *)
Definition later (a b : option datetime) : option datetime :=
  match a, b with
  | Some x, Some y => Some (Z.max x y)
  | Some x, None => Some x
  | None, _ => b
  end.

(** [evaluations[0]["date_completed"] if evaluations else None] after
    [sort("date_completed", -1)]: the latest date. *)
Definition last_evaluation_date (evs : list EvaluationDoc) : option datetime :=
  fold_right later None (map ev_date_completed evs).

(** ** Aggregation ([create_evaluation_with_answers], lines 389-399) *)

(** [all_evaluation_scores]: the scores that are not [None], in order. *)
Definition all_evaluation_scores (submission_evaluations : list EvaluationDoc)
    : list float :=
  omap ev_score submission_evaluations.

(** [new_submission_score]. *)
Definition new_submission_score (submission_evaluations : list EvaluationDoc)
    : float :=
  match all_evaluation_scores submission_evaluations with
  | [] => 0%float
  | scores =>
      PyFloat.round4
        (PyFloat.sum scores / PyFloat.of_len (length scores))%float
  end.

(** ** Request handlers ([app.py]) *)

(** [POST /category]. *)
Definition create_category (st : Store) (category : CategoryCreate)
    : Result CategoryRead * Store :=
  match find_one (fun c => String.eqb (cat_slug c) (cc_slug category))
          (categories st) with
  | Some existing_category =>
      (Raise (HTTPException 400
                ("Category with slug '" ++ cc_slug category
                 ++ "' already exists")),
       st)
  | None =>
      let category_dict :=
        {| cat_name := cc_name category;
           cat_description := cc_description category;
           cat_slug := cc_slug category;
           cat_evaluators := None |} in
      let st' := set_categories st (insert_one category_dict (categories st)) in
      (* [find_one({"_id": result.inserted_id})] is the document just
         inserted *)
      let created_category := category_dict in
      (Ok (CategoryRead_of_doc created_category), st')
  end.

(** [GET /categories]. *)
Definition get_categories (st : Store) : Result (list CategoryRead) :=
  Ok (map CategoryRead_of_doc (categories st)).

(** The [SubmissionRead] of the loop in [get_category_by_slug]. *)
Definition submission_read (st : Store) (category : CategoryDoc)
    (submission : SubmissionDoc) : SubmissionRead :=
  let evs := evaluations_of st (sub_id submission) in
  {| sr_id := sub_id submission;
     sr_project_id := sub_project_id submission;
     sr_project_name := sub_project_name submission;
     sr_karma_gap_id := sub_karma_gap_id submission;
     sr_date_completed := sub_date_completed submission;
     sr_score := sub_score submission;
     sr_category := CategoryRead_of_doc category;
     sr_last_evaluation_date := last_evaluation_date evs;
     sr_evaluation_count := length evs |}.

(** [GET /categories/{slug}]. *)
Definition get_category_by_slug (st : Store) (slug : string)
    : Result CategoryReadWithSubmissions :=
  category ← or_404
    (find_one (fun c => String.eqb (cat_slug c) slug) (categories st))
    "Category not found";
  Ok {| crs_base := CategoryRead_of_doc category;
        crs_submissions :=
          map (submission_read st category)
            (List.filter
               (fun s => String.eqb (cat_slug (sub_category s)) slug)
               (submissions st)) |}.

(** [GET /questions]. *)
Definition get_questions (st : Store) : Result (list QuestionDoc) :=
  Ok (questions st).

(** The loop that builds [created_answers] in
    [create_submission_with_answers]; the [k]-th call of [uuid4] names the
    next answer. *)
Fixpoint created_submission_answers (env : Env) (k : nat)
    (answers : list EvaluationAnswerCreate) : Result (list AnswerDoc) :=
  match answers with
  | [] => Ok []
  | answer_data :: rest =>
      answer ← SubmissionAnswer_init (uuid4 env k)
        (eac_question_id answer_data) (eac_answer answer_data);
      created ← created_submission_answers env (S k) rest;
      Ok (answer :: created)
  end.

(** [POST /submission].  The [Submission] of lines 197-207 is built with
    [score=None] and [evaluations=[]], and without an [owner]. *)
Definition create_submission_with_answers (env : Env) (st : Store)
    (submission_data : SubmissionCreate)
    : Result SubmissionWithAnswersRead * Store :=
  match find_one
          (fun c => String.eqb (cat_slug c) (sc_category submission_data))
          (categories st) with
  | None => (Raise (HTTPException 404 "Category not found"), st)
  | Some category =>
      let question_ids := map eac_question_id (sc_answers submission_data) in
      let qdict := questions_dict q_oid (questions st) question_ids in
      let n := length (sc_answers submission_data) in
      match
        created_answers ←
          created_submission_answers env 0 (sc_answers submission_data);
        _ ← Category_init category;
        Submission_init (uuid4 env n) (Some (utcnow env))
          (sc_project_id submission_data) (sc_project_name submission_data)
          (sc_karma_gap_id submission_data) None created_answers []
          category None
      with
      | Raise e => (Raise e, st)
      | Ok submission =>
          let st' :=
            set_submissions st (insert_one submission (submissions st)) in
          let created_submission := submission in
          (c ← Category_init (sub_category created_submission);
           Ok {| swa_base :=
                   {| sr_id := sub_id created_submission;
                      sr_project_id := sub_project_id created_submission;
                      sr_project_name := sub_project_name created_submission;
                      sr_karma_gap_id := sub_karma_gap_id created_submission;
                      sr_date_completed :=
                        sub_date_completed created_submission;
                      sr_score := sub_score created_submission;
                      sr_category := CategoryRead_of_model c;
                      sr_last_evaluation_date := None;
                      sr_evaluation_count := 0 |};
                 swa_answers :=
                   answers_with_questions qdict
                     (sub_answers created_submission);
                 swa_karma_data := None |},
           st')
      end
  end.

(** [GET /submissions/{submission_id}].  The stored record has its
    [answers] and [score] keys, so the defaults of the handler for absent
    keys are not met. *)
Definition get_submission (env : Env) (st : Store) (submission_id : string)
    : Result SubmissionWithAnswersRead :=
  submission ← or_404
    (find_one (fun s => String.eqb (sub_id s) submission_id) (submissions st))
    "Submission not found";
  category ← or_404
    (find_one
       (fun c => String.eqb (cat_slug c) (cat_slug (sub_category submission)))
       (categories st))
    "Category not found";
  let evs := evaluations_of st submission_id in
  let question_ids := map a_question_id (sub_answers submission) in
  let qdict := questions_dict q_id (questions st) question_ids in
  let karma_data := get_karma_data env (sub_karma_gap_id submission) in
  c ← Category_init category;
  Ok {| swa_base :=
          {| sr_id := sub_id submission;
             sr_project_id := sub_project_id submission;
             sr_project_name := sub_project_name submission;
             sr_karma_gap_id := sub_karma_gap_id submission;
             sr_date_completed := sub_date_completed submission;
             sr_score := sub_score submission;
             sr_category := CategoryRead_of_model c;
             sr_last_evaluation_date := last_evaluation_date evs;
             sr_evaluation_count := length evs |};
        swa_answers := answers_with_questions qdict (sub_answers submission);
        swa_karma_data := karma_data |}.

(** [EvaluationWithAnswersRead] of a stored evaluation. *)
Definition evaluation_read (st : Store) (evaluation : EvaluationDoc)
    : EvaluationWithAnswersRead :=
  let question_ids := map a_question_id (ev_answers evaluation) in
  let qdict := questions_dict q_id (questions st) question_ids in
  {| er_id := ev_id evaluation;
     er_date_completed := ev_date_completed evaluation;
     er_evaluator := ev_evaluator evaluation;
     er_submission_id := ev_submission_id evaluation;
     er_score := ev_score evaluation;
     er_answers := answers_with_questions qdict (ev_answers evaluation) |}.

(** [GET /evaluations/{evaluation_id}]. *)
Definition get_evaluation (st : Store) (evaluation_id : string)
    : Result EvaluationWithAnswersRead :=
  evaluation ← or_404
    (find_one (fun e => String.eqb (ev_id e) evaluation_id) (evaluations st))
    "Evaluation not found";
  Ok (evaluation_read st evaluation).

(** [GET /submissions/{submission_id}/evaluations]. *)
Definition get_evaluations_by_submission (st : Store) (submission_id : string)
    : Result (list EvaluationWithAnswersRead) :=
  submission ← or_404
    (find_one (fun s => String.eqb (sub_id s) submission_id) (submissions st))
    "Submission not found";
  Ok (map (evaluation_read st) (sub_evaluations submission)).

Section Evaluation.
Context (cfg : Config).

(** The [Evaluation] of lines 365-383: the answers take the first
    [uuid4] values, the evaluation the next one. *)
Definition new_evaluation (env : Env) (evaluation_data : EvaluationCreate)
    (score : float) : EvaluationDoc :=
  let created_answers :=
    imap (fun k answer_data =>
            {| a_id := uuid4 env k;
               a_question_id := eac_question_id answer_data;
               a_answer := eac_answer answer_data |})
      (ec_answers evaluation_data) in
  {| ev_id := uuid4 env (length (ec_answers evaluation_data));
     ev_evaluator := ec_evaluator evaluation_data;
     ev_submission_id := ec_submission_id evaluation_data;
     ev_date_completed := Some (utcnow env);
     ev_score := Some score;
     ev_answers := created_answers |}.

(** [POST /evaluation]. *)
Definition create_evaluation_with_answers (env : Env) (st : Store)
    (evaluation_data : EvaluationCreate)
    : Result EvaluationWithAnswersRead * Store :=
  let this := fun s => String.eqb (sub_id s) (ec_submission_id evaluation_data) in
  match find_one this (submissions st) with
  | None => (Raise (HTTPException 404 "Submission not found"), st)
  | Some submission =>
      match calculated_score cfg (ec_answers evaluation_data) with
      | Raise e => (Raise e, st)
      | Ok score =>
          let evaluation := new_evaluation env evaluation_data score in
          let submission_evaluations :=
            sub_evaluations submission ++ [evaluation] in
          let new_score := new_submission_score submission_evaluations in
          let st1 :=
            set_submissions st
              (update_one this
                 (set_evaluations_score submission_evaluations new_score)
                 (submissions st)) in
          let st2 :=
            set_evaluations st1 (insert_one evaluation (evaluations st1)) in
          (Ok (evaluation_read st2 evaluation), st2)
      end
  end.

End Evaluation.

(** ** The API as a transition system *)

Inductive Request :=
| CreateCategory (category : CategoryCreate)
| GetCategories
| GetCategoryBySlug (slug : string)
| GetQuestions
| CreateSubmission (submission_data : SubmissionCreate)
| GetSubmission (submission_id : string)
| CreateEvaluation (evaluation_data : EvaluationCreate)
| GetEvaluation (evaluation_id : string)
| GetEvaluationsBySubmission (submission_id : string).

(** The store a request leaves behind.  The [GET] handlers issue reads
    only. *)
Definition handle (cfg : Config) (env : Env) (st : Store) (req : Request)
    : Store :=
  match req with
  | CreateCategory category => snd (create_category st category)
  | CreateSubmission submission_data =>
      snd (create_submission_with_answers env st submission_data)
  | CreateEvaluation evaluation_data =>
      snd (create_evaluation_with_answers cfg env st evaluation_data)
  | GetCategories | GetCategoryBySlug _ | GetQuestions | GetSubmission _
  | GetEvaluation _ | GetEvaluationsBySubmission _ => st
  end.

(** A request that is not an evaluation creation for [submission_id]. *)
Definition creates_evaluation_for (submission_id : string) (req : Request)
    : bool :=
  match req with
  | CreateEvaluation evaluation_data =>
      String.eqb (ec_submission_id evaluation_data) submission_id
  | _ => false
  end.

(** ** Wallet sessions ([onchain.py]) *)

Module Onchain.

(** The settings read from the environment (lines 8-12). *)
Record Settings := {
  SECRET : string;
  ALGORITHM : string;
  TOKEN_TTL : float;
  NONCE_TTL : float
}.

(** *** Nonces

    [nonces] is the module-level dictionary from nonce to expiry.  The
    two readings of [_now()] and the value of [uuid.uuid4().hex] are the
    inputs of an issuance. *)

(** [_clean_nonces]: the loop runs over a copy of the items and pops
    every nonce whose expiry is before [now]. *)
Definition _clean_nonces (now : float) (nonces : gmap string float)
    : gmap string float :=
  fold_left
    (fun acc item =>
       if (snd item <? now)%float then delete (fst item) acc else acc)
    (map_to_list nonces) nonces.

(** [_new_nonce]: the new registry and the nonce returned. *)
Definition _new_nonce (cfg : Settings) (now_clean now_store : float)
    (uuid_hex : string) (nonces : gmap string float)
    : string * gmap string float :=
  let nonces := _clean_nonces now_clean nonces in
  let nonce := uuid_hex in
  (nonce, <[nonce := (now_store + NONCE_TTL cfg)%float]> nonces).

(** *** Roles *)

(** The query [{"evaluators": address}]: the array holds the address. *)
Definition lists_evaluator (address : string) (c : CategoryDoc) : bool :=
  match cat_evaluators c with
  | Some evaluators => existsb (String.eqb address) evaluators
  | None => false
  end.

Section Role.
(** [eth_utils.to_checksum_address]; [None] when it raises
    [ValueError] on a string that is not an address. *)
Context (to_checksum_address : string -> option string).

Definition _role (cats : list CategoryDoc) (address : string)
    : Result string :=
  if String.eqb address "" then Ok "user"
  else
    match to_checksum_address address with
    | None => Raise ValueError
    | Some address =>
        match find_one (lists_evaluator address) cats with
        | Some exists_ => Ok "evaluator"
        | None => Ok "user"
        end
    end.
End Role.

(** *** Tokens *)

(** The exceptions [jose.jwt.decode] documents: [JWTError] for a
    signature that is invalid in any way, and its subclasses
    [ExpiredSignatureError] and [JWTClaimsError]. *)
Inductive JWTError :=
| InvalidSignature
| ExpiredSignatureError
| JWTClaimsError.

Inductive Decoded (Claims : Type) :=
| Claims_of (claims : Claims)
| Raises (e : JWTError).
Arguments Claims_of {Claims} claims.
Arguments Raises {Claims} e.

Section Token.
Context (cfg : Settings) {Claims : Type}.
(** [jwt.decode(token, key, algorithms=...)] at a reading of the
    clock. *)
Context (jwt_decode : Z -> string -> string -> list string -> Decoded Claims).

(** [_verify_token]: [except JWTError] catches the three. *)
Definition _verify_token (now : Z) (token : option string)
    : option Claims :=
  match token with
  | None => None
  | Some token =>
      if String.eqb token "" then None
      else
        match jwt_decode now token (SECRET cfg) [ALGORITHM cfg] with
        | Claims_of claims => Some claims
        | Raises _ => None
        end
  end.
End Token.

End Onchain.

(** ** The aggregate as the specification words it *)

(** [mean(scores)]. *)
Definition mean (scores : list float) : float :=
  (PyFloat.sum scores / PyFloat.of_len (length scores))%float.

(** [round(mean(S), 4)] for the non-null scores [S], and 0.0 when there is
    none. *)
Definition rounded_mean (S : list float) : float :=
  match S with
  | [] => 0%float
  | _ => PyFloat.round4 (mean S)
  end.

(** ** Frame of a submission record *)

(** Every field of [s'] other than [score] and [evaluations] is as in
    [s]. *)
Definition same_outside_score_and_evaluations (s s' : SubmissionDoc) : Prop :=
  sub_id s' = sub_id s /\
  sub_project_id s' = sub_project_id s /\
  sub_project_name s' = sub_project_name s /\
  sub_karma_gap_id s' = sub_karma_gap_id s /\
  sub_date_completed s' = sub_date_completed s /\
  sub_answers s' = sub_answers s /\
  sub_category s' = sub_category s /\
  sub_owner s' = sub_owner s.

(** The question catalog holds a question with the answer's
    [question_id]. *)
Definition has_question (catalog : list QuestionDoc) (answer : AnswerDoc)
    : bool :=
  existsb (fun q => String.eqb (q_id q) (a_question_id answer)) catalog.

(** A returned answer carries a question of the catalog, the one it refers
    to. *)
Definition question_matches (catalog : list QuestionDoc) (r : AnswerRead)
    : Prop :=
  In (ar_question r) catalog /\ q_id (ar_question r) = ar_question_id r.

(** ** Sample data *)

(** A configuration under which four agreeing answers out of five score
    0.8 and three score 0.6. *)
Definition config_of_five : Config :=
  {| MAX_SCORE := 5; AGREE_SCORE := 1; DISAGREE_SCORE := 0;
     NEITHER_SCORE := 0.5 |}.

Definition sample_env : Env :=
  {| uuid4 := fun k => String (Ascii.ascii_of_nat (97 + k)) "-uuid";
     utcnow := 1700000000;
     get_karma_data := fun _ => None |}.

(** An evaluation document with a given score. *)
Definition scored (score : option float) : EvaluationDoc :=
  {| ev_id := "e"; ev_evaluator := "0xE"; ev_submission_id := "s1";
     ev_date_completed := Some 1690000000; ev_score := score;
     ev_answers := [] |}.

Definition sample_category : CategoryDoc :=
  {| cat_name := "Climate"; cat_description := None; cat_slug := "climate";
     cat_evaluators := Some ["0xE"] |}.

Definition sample_question (id : string) : QuestionDoc :=
  {| q_oid := "oid-" ++ id; q_id := id; q_project_statement := "p";
     q_project_description := None; q_evaluator_statement := "e";
     q_evaluator_description := None; q_section := "s"; q_order := 1 |}.

Definition sample_submission (evals : list EvaluationDoc)
    (score : option float) : SubmissionDoc :=
  {| sub_id := "s1"; sub_project_id := "p1"; sub_project_name := "Project";
     sub_karma_gap_id := "k1"; sub_date_completed := Some 1680000000;
     sub_score := score;
     sub_answers :=
       [ {| a_id := "a1"; a_question_id := "q1"; a_answer := "yes" |};
         {| a_id := "a2"; a_question_id := "gone"; a_answer := "no" |} ];
     sub_evaluations := evals;
     sub_category := sample_category; sub_owner := "0xO" |}.

Definition sample_store (evals : list EvaluationDoc) (score : option float)
    : Store :=
  {| categories := [sample_category];
     submissions := [sample_submission evals score];
     questions := [sample_question "q1"; sample_question "q2"];
     evaluations := [] |}.

(** An evaluation request for the sample submission with the given answer
    codes. *)
Definition sample_request (codes : list string) : EvaluationCreate :=
  {| ec_evaluator := "0xE"; ec_submission_id := "s1";
     ec_answers := map answer_of codes |}.

(** A submission request in the sample category. *)
Definition sample_submission_create : SubmissionCreate :=
  {| sc_project_id := "p2"; sc_project_name := "Another project";
     sc_karma_gap_id := "k2";
     sc_answers := [ {| eac_question_id := "q1"; eac_answer := "yes" |} ];
     sc_category := "climate" |}.

Definition sample_settings : Onchain.Settings :=
  {| Onchain.SECRET := "dev-secret-must-be-32-chars-or-more";
     Onchain.ALGORITHM := "HS256";
     Onchain.TOKEN_TTL := 86400;
     Onchain.NONCE_TTL := 300 |}.

(** A checksum function that knows a single address. *)
Definition sample_checksum (address : string) : option string :=
  if String.eqb address "0xe" then Some "0xE" else None.

(** A decoder that knows three tokens: one signed with the settings'
    secret that expires at 2000, one signed with another secret, and one
    that is not a token. *)
Definition sample_decode (now : Z) (token key : string)
    (algorithms : list string) : Onchain.Decoded (list (string * string)) :=
  if String.eqb token "signed" then
    if negb (String.eqb key "dev-secret-must-be-32-chars-or-more") then
      Onchain.Raises Onchain.InvalidSignature
    else if 2000 <? now then Onchain.Raises Onchain.ExpiredSignatureError
    else Onchain.Claims_of [("sub", "0xE"); ("role", "evaluator")]
  else Onchain.Raises Onchain.InvalidSignature.

(** ** Sequences of requests *)

(** The store after a sequence of requests, each taken with what it reads
    from outside the store. *)
Definition run (cfg : Config) (st : Store) (reqs : list (Env * Request))
    : Store :=
  fold_left (fun st er => handle cfg (fst er) st (snd er)) reqs st.

(** The two places an evaluation is stored in agree: submission ids are
    pairwise distinct, and the evaluations embedded in a submission are
    those the evaluations collection holds for its id, in the same
    order. *)
Definition in_step (st : Store) : Prop :=
  NoDup (map sub_id (submissions st)) /\
  forall s, In s (submissions st) ->
    evaluations_of st (sub_id s) = sub_evaluations s.

(** The score of a submission is null or the aggregate of the evaluations
    embedded in it. *)
Definition score_in_step (s : SubmissionDoc) : Prop :=
  sub_score s = None \/
  sub_score s = Some (new_submission_score (sub_evaluations s)).

(** ** Seeding the question catalog ([questions.py]) *)

(** An entry of [questions.json]. *)
Record QuestionData := {
  qd_project_statement : string;
  qd_project_description : option string;
  qd_evaluator_statement : string;
  qd_evaluator_description : option string;
  qd_section : string;
  qd_order : Z
}.

(** [load_questions_from_json].  [file] is the parsed content of
    [questions.json], [None] when opening or parsing it raises (every
    exception is caught and printed); [uuid4] gives the ids the loop
    draws and [oid] the [_id] values the store assigns on [insert_many]. *)
Definition load_questions_from_json (uuid4 oid : nat -> string)
    (file : option (list QuestionData)) (catalog : list QuestionDoc)
    : list QuestionDoc :=
  match file with
  | None => catalog
  | Some questions_data =>
      if (0 <? length catalog)%nat then catalog
      else
        let questions_with_ids :=
          imap (fun k question_data =>
                  {| q_oid := oid k; q_id := uuid4 k;
                     q_project_statement := qd_project_statement question_data;
                     q_project_description :=
                       qd_project_description question_data;
                     q_evaluator_statement :=
                       qd_evaluator_statement question_data;
                     q_evaluator_description :=
                       qd_evaluator_description question_data;
                     q_section := qd_section question_data;
                     q_order := qd_order question_data |})
            questions_data in
        match questions_with_ids with
        | [] => catalog
        | _ => catalog ++ questions_with_ids
        end
  end.

(** ** More sample data *)

Definition sample_question_data (statement : string) : QuestionData :=
  {| qd_project_statement := statement; qd_project_description := None;
     qd_evaluator_statement := statement; qd_evaluator_description := None;
     qd_section := "s"; qd_order := 1 |}.

(** Another source of [uuid4] values. *)
Definition other_env : Env :=
  {| uuid4 := fun k => String (Ascii.ascii_of_nat (65 + k)) "-uuid";
     utcnow := 1700000500;
     get_karma_data := fun _ => Some "registry data" |}.

(** A sequence of requests on the sample store: a category, two
    evaluations of the sample submission, an attempt at a submission and a
    read. *)
Definition sample_requests : list (Env * Request) :=
  [ (sample_env,
     CreateCategory
       {| cc_name := "Water"; cc_description := None; cc_slug := "water" |});
    (sample_env, CreateEvaluation (sample_request ["1"; "1"; "1"; "1"; "2"]));
    (sample_env, CreateSubmission sample_submission_create);
    (other_env, CreateEvaluation (sample_request ["1"; "1"; "1"; "2"; "2"]));
    (other_env, GetSubmission "s1") ].


(** * Properties *)

(** ** Scoring *)

Section ScoringFacts.
Context (cfg : Config).

Lemma valid_code_cases code :
  valid_code code = true -> code = "1" \/ code = "2" \/ code = "3".
Proof.
  unfold valid_code. intros H.
  apply orb_true_iff in H as [H | H]; [apply orb_true_iff in H as [H | H] |];
    apply String.eqb_eq in H; auto.
Qed.

Lemma score_step_valid acc answer :
  valid_code (eac_answer answer) = true ->
  score_step cfg acc answer = (acc + weight cfg (eac_answer answer))%float.
Proof.
  intros H. unfold score_step, weight.
  destruct (valid_code_cases _ H) as [-> | [-> | ->]]; reflexivity.
Qed.

Lemma score_step_malformed acc answer :
  valid_code (eac_answer answer) = false ->
  score_step cfg acc answer = 0%float.
Proof.
  unfold valid_code, score_step. intros H.
  apply orb_false_iff in H as [H H3]. apply orb_false_iff in H as [H1 H2].
  rewrite H1, H2, H3. reflexivity.
Qed.

Lemma fold_score_step_valid answers : forall acc,
  Forall (fun a => valid_code (eac_answer a) = true) answers ->
  fold_left (score_step cfg) answers acc
  = fold_left PrimFloat.add (map (fun a => weight cfg (eac_answer a)) answers) acc.
Proof.
  induction answers as [| a answers IH]; intros acc Hall; [reflexivity |].
  inversion Hall as [| ? ? Ha Hrest]; subst. simpl.
  rewrite (score_step_valid _ _ Ha). apply IH, Hrest.
Qed.

Lemma evaluation_score_reset pre bad post :
  valid_code (eac_answer bad) = false ->
  evaluation_score cfg (pre ++ bad :: post) = evaluation_score cfg post.
Proof.
  intros Hbad. unfold evaluation_score.
  rewrite fold_left_app. simpl. rewrite (score_step_malformed _ _ Hbad).
  reflexivity.
Qed.

End ScoringFacts.

(** Binary64 facts about a zero numerator. *)

Lemma zero_div_is_zero (y : float) :
  (y =? 0)%float = false -> (y =? y)%float = true ->
  exists s, Prim2SF (0 / y) = S754_zero s.
Proof.
  intros Hnz Hnum. rewrite FloatAxioms.eqb_spec in Hnz, Hnum.
  rewrite FloatAxioms.div_spec.
  change (Prim2SF 0) with (S754_zero false) in *.
  destruct (Prim2SF y) as [sy | sy | | sy my ey]; simpl in *;
    try discriminate; eauto.
Qed.

Lemma round4_zero (x : float) s :
  Prim2SF x = S754_zero s -> PyFloat.round4 x = x /\ (x =? 0)%float = true.
Proof.
  intros H. unfold PyFloat.round4. rewrite FloatAxioms.eqb_spec, H.
  split; reflexivity.
Qed.

(** C1 (as stated, refuted): with the example configuration the answers
    ["9"; "1"] hold a code outside "1", "2", "3", and yet the computed
    score is 0.25, not 0.0: the answer after the malformed one still
    counts. *)
Lemma malformed_answer_first_counterexample :
  valid_code (eac_answer (answer_of "9")) = false /\
  In (answer_of "9") (map answer_of ["9"; "1"]) /\
  calculated_score example_config (map answer_of ["9"; "1"]) = Ok 0.25%float /\
  (0.25 =? 0)%float = false.
Proof.
  split; [reflexivity |]. split; [left; reflexivity |].
  split; vm_compute; reflexivity.
Qed.

(** C1 (amended): an answer whose code is outside "1", "2", "3" resets the
    running total to zero where it stands, whatever came before it, so the
    score of the evaluation is the score of the answers that follow the
    malformed one; when the malformed answer is the last one and
    [MAX_SCORE] is a number other than zero, the score equals 0.0. *)
Theorem malformed_answer_resets_running_total (cfg : Config)
    (pre : list EvaluationAnswerCreate) (bad : EvaluationAnswerCreate)
    (post : list EvaluationAnswerCreate) :
  valid_code (eac_answer bad) = false ->
  evaluation_score cfg (pre ++ bad :: post) = evaluation_score cfg post /\
  calculated_score cfg (pre ++ bad :: post) = calculated_score cfg post /\
  ((MAX_SCORE cfg =? 0)%float = false ->
   (MAX_SCORE cfg =? MAX_SCORE cfg)%float = true ->
   exists z, calculated_score cfg (pre ++ [bad]) = Ok z /\
             (z =? 0)%float = true).
Proof.
  intros Hbad. split; [apply evaluation_score_reset, Hbad |].
  split.
  - unfold calculated_score. rewrite (evaluation_score_reset _ _ _ _ Hbad).
    reflexivity.
  - intros Hnz Hnum. unfold calculated_score.
    rewrite (evaluation_score_reset _ _ _ _ Hbad).
    unfold evaluation_score, PyFloat.truediv. simpl fold_left. rewrite Hnz.
    destruct (zero_div_is_zero _ Hnz Hnum) as [s Hs].
    destruct (round4_zero _ _ Hs) as [Hr Hz].
    exists (0 / MAX_SCORE cfg)%float. split; [| exact Hz].
    simpl. rewrite Hr. reflexivity.
Qed.

(** The specification's example: ["1"; "1"; "9"] scores as the empty
    evaluation does, 0.0. *)
Lemma malformed_answer_resets_running_total_witness :
  valid_code (eac_answer (answer_of "9")) = false /\
  calculated_score example_config (map answer_of ["1"; "1"; "9"])
  = calculated_score example_config [] /\
  calculated_score example_config [] = Ok 0%float.
Proof.
  split; [reflexivity |]. split; [| vm_compute; reflexivity].
  apply (malformed_answer_resets_running_total example_config
           (map answer_of ["1"; "1"]) (answer_of "9") []).
  reflexivity.
Defined.

(** C3: when every answer code is one of "1", "2", "3", each answer adds
    the weight of its code ([AGREE_SCORE], [DISAGREE_SCORE],
    [NEITHER_SCORE]) and the score is [round(sum(weights) / MAX_SCORE, 4)]
    ([MAX_SCORE] not zero, so that the division is defined); with the
    example configuration, ["1"; "1"; "2"; "3"] scores 0.625. *)
Theorem valid_answers_score (cfg : Config)
    (answers : list EvaluationAnswerCreate) :
  Forall (fun a => valid_code (eac_answer a) = true) answers ->
  (MAX_SCORE cfg =? 0)%float = false ->
  (weight cfg "1" = AGREE_SCORE cfg /\ weight cfg "2" = DISAGREE_SCORE cfg /\
   weight cfg "3" = NEITHER_SCORE cfg) /\
  (forall acc a, In a answers ->
     score_step cfg acc a = (acc + weight cfg (eac_answer a))%float) /\
  calculated_score cfg answers
  = Ok (PyFloat.round4
          (PyFloat.sum (map (fun a => weight cfg (eac_answer a)) answers)
           / MAX_SCORE cfg)%float) /\
  calculated_score example_config (map answer_of ["1"; "1"; "2"; "3"])
  = Ok 0.625%float.
Proof.
  intros Hall Hnz. split; [repeat split |]. split.
  - intros acc a Hin. apply score_step_valid.
    rewrite Forall_forall in Hall. apply Hall, list_elem_of_In, Hin.
  - split; [| vm_compute; reflexivity].
    unfold calculated_score, evaluation_score, PyFloat.truediv, PyFloat.sum.
    rewrite Hnz. simpl. rewrite (fold_score_step_valid cfg answers _ Hall).
    reflexivity.
Qed.

Lemma valid_answers_score_witness :
  calculated_score example_config (map answer_of ["1"; "1"; "2"; "3"])
  = Ok (PyFloat.round4
          (PyFloat.sum
             (map (fun a => weight example_config (eac_answer a))
                (map answer_of ["1"; "1"; "2"; "3"]))
           / MAX_SCORE example_config)%float).
Proof.
  apply (valid_answers_score example_config
           (map answer_of ["1"; "1"; "2"; "3"])).
  - repeat constructor.
  - reflexivity.
Defined.

(** ** The document store *)

Section Collections.
Context {A : Type} (P : A -> bool) (set : A -> A).

Lemma find_one_update_one (coll : list A) (doc : A) :
  (forall d, P (set d) = P d) ->
  find_one P coll = Some doc ->
  find_one P (update_one P set coll) = Some (set doc).
Proof.
  intros Hkeep. unfold find_one.
  induction coll as [| d rest IH]; simpl; [discriminate |].
  destruct (P d) eqn:Hd; simpl.
  - intros [= ->]. rewrite Hkeep, Hd. reflexivity.
  - rewrite Hd. exact IH.
Qed.

Lemma update_one_lookup (coll : list A) (i : nat) (doc : A) :
  coll !! i = Some doc ->
  update_one P set coll !! i = Some doc \/
  (P doc = true /\ update_one P set coll !! i = Some (set doc)).
Proof.
  revert i. induction coll as [| d rest IH]; intros i; [discriminate |].
  simpl. destruct (P d) eqn:Hd.
  - destruct i as [| i]; simpl; [| auto].
    intros [= ->]. right. auto.
  - destruct i as [| i]; simpl; [auto |]. apply IH.
Qed.

Lemma update_one_lookup_other (coll : list A) (i : nat) (doc : A) :
  coll !! i = Some doc -> P doc = false ->
  update_one P set coll !! i = Some doc.
Proof.
  intros Hi Hdoc.
  destruct (update_one_lookup coll i doc Hi) as [H | [H _]]; [exact H |].
  congruence.
Qed.

Lemma length_update_one (coll : list A) :
  length (update_one P set coll) = length coll.
Proof.
  induction coll as [| d rest IH]; simpl; [reflexivity |].
  destruct (P d); simpl; congruence.
Qed.

End Collections.

Lemma all_evaluation_scores_app (evs : list EvaluationDoc) (e : EvaluationDoc)
    (score : float) :
  ev_score e = Some score ->
  all_evaluation_scores (evs ++ [e]) = all_evaluation_scores evs ++ [score].
Proof.
  intros He. unfold all_evaluation_scores. rewrite omap_app. simpl.
  rewrite He. reflexivity.
Qed.

Lemma new_submission_score_rounded_mean (evs : list EvaluationDoc) :
  new_submission_score evs = rounded_mean (all_evaluation_scores evs).
Proof.
  unfold new_submission_score, rounded_mean, mean.
  destruct (all_evaluation_scores evs); reflexivity.
Qed.

(** What [create_evaluation_with_answers] does once the submission is found
    and the score is computed. *)
Lemma create_evaluation_run (cfg : Config) (env : Env) (st : Store)
    (evaluation_data : EvaluationCreate) (submission : SubmissionDoc)
    (score : float) :
  let this := fun s => String.eqb (sub_id s) (ec_submission_id evaluation_data) in
  let evaluation := new_evaluation env evaluation_data score in
  let evs := sub_evaluations submission ++ [evaluation] in
  find_one this (submissions st) = Some submission ->
  calculated_score cfg (ec_answers evaluation_data) = Ok score ->
  exists response,
    create_evaluation_with_answers cfg env st evaluation_data
    = (Ok response,
       set_evaluations
         (set_submissions st
            (update_one this
               (set_evaluations_score evs (new_submission_score evs))
               (submissions st)))
         (insert_one evaluation (evaluations st))).
Proof.
  intros this evaluation evs Hfind Hscore.
  unfold create_evaluation_with_answers. fold this. rewrite Hfind, Hscore.
  eexists. reflexivity.
Qed.

Lemma calculated_score_defined (cfg : Config)
    (answers : list EvaluationAnswerCreate) :
  (MAX_SCORE cfg =? 0)%float = false ->
  exists score, calculated_score cfg answers = Ok score.
Proof.
  intros Hnz. unfold calculated_score, PyFloat.truediv. rewrite Hnz.
  eexists. reflexivity.
Qed.

Lemma submission_after_evaluation (cfg : Config) (env : Env) (st : Store)
    (evaluation_data : EvaluationCreate) (submission : SubmissionDoc) :
  find_one (fun s => String.eqb (sub_id s) (ec_submission_id evaluation_data))
    (submissions st) = Some submission ->
  (MAX_SCORE cfg =? 0)%float = false ->
  exists score updated,
    calculated_score cfg (ec_answers evaluation_data) = Ok score /\
    find_one
      (fun s => String.eqb (sub_id s) (ec_submission_id evaluation_data))
      (submissions (handle cfg env st (CreateEvaluation evaluation_data)))
    = Some updated /\
    sub_evaluations updated
    = sub_evaluations submission ++ [new_evaluation env evaluation_data score] /\
    all_evaluation_scores (sub_evaluations updated)
    = all_evaluation_scores (sub_evaluations submission) ++ [score] /\
    sub_score updated
    = Some (rounded_mean (all_evaluation_scores (sub_evaluations updated))).
Proof.
  intros Hfind Hnz.
  destruct (calculated_score_defined cfg (ec_answers evaluation_data) Hnz)
    as [score Hscore].
  destruct (create_evaluation_run cfg env st evaluation_data submission score
              Hfind Hscore) as [response Hrun].
  eexists score, _. split; [exact Hscore |]. simpl. rewrite Hrun. simpl.
  split; [apply find_one_update_one; [reflexivity | exact Hfind] |].
  simpl. split; [reflexivity |]. split.
  - apply all_evaluation_scores_app. reflexivity.
  - rewrite new_submission_score_rounded_mean. reflexivity.
Qed.

(** ** Aggregation into the submission score *)

(** C2: an evaluation-creation request on an existing submission
    ([MAX_SCORE] not zero, so that the evaluation score is defined)
    succeeds, appends the new evaluation to the submission's evaluations,
    and leaves the submission's score at [round(mean(S), 4)], where [S]
    holds, in order, the scores of the attached evaluations, the earlier
    ones and the new one, that are not null: a score is in [S] exactly
    when it is the non-null score of an attached evaluation, and an
    evaluation with a null score adds nothing to [S].  The score is 0.0
    should [S] be empty; a first score of 0.8 gives 0.8, and a second of
    0.6 gives 0.7. *)
Theorem submission_score_is_rounded_mean (cfg : Config) (env : Env)
    (st : Store) (evaluation_data : EvaluationCreate)
    (submission : SubmissionDoc) :
  find_one (fun s => String.eqb (sub_id s) (ec_submission_id evaluation_data))
    (submissions st) = Some submission ->
  (MAX_SCORE cfg =? 0)%float = false ->
  (exists response st' score updated,
     create_evaluation_with_answers cfg env st evaluation_data
     = (Ok response, st') /\
     calculated_score cfg (ec_answers evaluation_data) = Ok score /\
     find_one
       (fun s => String.eqb (sub_id s) (ec_submission_id evaluation_data))
       (submissions st') = Some updated /\
     sub_evaluations updated
     = sub_evaluations submission ++ [new_evaluation env evaluation_data score] /\
     ev_score (new_evaluation env evaluation_data score) = Some score /\
     omap ev_score (sub_evaluations updated)
     = omap ev_score (sub_evaluations submission) ++ [score] /\
     (forall x, x ∈ omap ev_score (sub_evaluations updated) <->
                exists e, e ∈ sub_evaluations updated /\ ev_score e = Some x) /\
     length (omap ev_score (sub_evaluations updated))
     = length (List.filter (fun e => bool_decide (ev_score e <> None))
                 (sub_evaluations updated)) /\
     all_evaluation_scores (sub_evaluations updated)
     = all_evaluation_scores (sub_evaluations submission) ++ [score] /\
     sub_score updated
     = Some (rounded_mean (omap ev_score (sub_evaluations updated))) /\
     sub_score updated
     = Some (rounded_mean (all_evaluation_scores (sub_evaluations updated)))) /\
  rounded_mean [] = 0%float /\
  rounded_mean [0.8%float] = 0.8%float /\
  rounded_mean [0.8%float; 0.6%float] = 0.7%float /\
  rounded_mean (omap ev_score [scored None; scored (Some 0.8%float)])
  = 0.8%float.
Proof.
  intros Hfind Hnz. split; [| repeat split; vm_compute; reflexivity].
  destruct (calculated_score_defined cfg (ec_answers evaluation_data) Hnz)
    as [score Hscore].
  destruct (create_evaluation_run cfg env st evaluation_data submission score
              Hfind Hscore) as [response Hrun].
  eexists response, _, score, _. split; [exact Hrun |].
  split; [exact Hscore |]. simpl. split.
  - apply find_one_update_one; [reflexivity | exact Hfind].
  - simpl. split; [reflexivity |]. split; [reflexivity |].
    assert (Happ : omap ev_score
                     (sub_evaluations submission
                      ++ [new_evaluation env evaluation_data score])
                   = omap ev_score (sub_evaluations submission) ++ [score])
      by (rewrite omap_app; reflexivity).
    split; [exact Happ |]. split; [intros x; apply list_elem_of_omap |].
    split.
    { generalize (sub_evaluations submission
                  ++ [new_evaluation env evaluation_data score]).
      intros evs. induction evs as [| e evs IH]; [reflexivity |].
      simpl. destruct (ev_score e); simpl; [f_equal |]; exact IH. }
    split; [exact Happ |].
    split; [| rewrite new_submission_score_rounded_mean; reflexivity].
    rewrite new_submission_score_rounded_mean. reflexivity.
Qed.

(** An evaluation of the sample submission, which already holds an
    evaluation with a null score: four agreeing answers out of five give
    the evaluation 0.8, and the submission 0.8 as well, the null score
    being left out of the mean. *)
Lemma submission_score_is_rounded_mean_witness :
  exists response st' score updated,
    create_evaluation_with_answers config_of_five sample_env
      (sample_store [scored None] None)
      (sample_request ["1"; "1"; "1"; "1"; "2"])
    = (Ok response, st') /\
    calculated_score config_of_five
      (ec_answers (sample_request ["1"; "1"; "1"; "1"; "2"])) = Ok score /\
    find_one (fun s => String.eqb (sub_id s) "s1") (submissions st')
    = Some updated /\
    omap ev_score (sub_evaluations updated) = [0.8%float] /\
    length (sub_evaluations updated) = 2%nat /\
    sub_score updated = Some 0.8%float.
Proof.
  destruct (submission_score_is_rounded_mean config_of_five sample_env
              (sample_store [scored None] None)
              (sample_request ["1"; "1"; "1"; "1"; "2"])
              (sample_submission [scored None] None) eq_refl eq_refl)
    as [(response & st' & score & updated & Hrun & Hscore & Hfind & Hevs
         & _ & Hall & _ & _ & _ & Hsc & _) _].
  exists response, st', score, updated.
  split; [exact Hrun |]. split; [exact Hscore |]. split; [exact Hfind |].
  vm_compute in Hscore. injection Hscore as <-.
  split; [rewrite Hall; reflexivity |].
  split; [rewrite Hevs; reflexivity |].
  rewrite Hsc, Hall. vm_compute. reflexivity.
Defined.

(** The specification's run: a submission without evaluations gets a first
    evaluation scoring 0.8 and then a second scoring 0.6. *)
Example two_evaluations_run :
  let score_of st :=
    sub_score <$> find_one (fun s => String.eqb (sub_id s) "s1")
                    (submissions st) in
  let st0 := sample_store [] None in
  let st1 := handle config_of_five sample_env st0
               (CreateEvaluation (sample_request ["1"; "1"; "1"; "1"; "2"])) in
  let st2 := handle config_of_five sample_env st1
               (CreateEvaluation (sample_request ["1"; "1"; "1"; "2"; "2"])) in
  score_of st0 = Some None /\
  map ev_score (evaluations st1) = [Some 0.8%float] /\
  score_of st1 = Some (Some 0.8%float) /\
  map ev_score (evaluations st2) = [Some 0.8%float; Some 0.6%float] /\
  score_of st2 = Some (Some 0.7%float).
Proof. vm_compute. repeat split. Qed.

(** ** Which requests write to a submission *)

(** [POST /submission] never gets to its insert: the [Submission] it builds
    lacks the required [owner], so the request ends in an error (the 404 of
    an unknown category, or a validation error) and the store is as
    before. *)
Lemma create_submission_with_answers_raises (env : Env) (st : Store)
    (submission_data : SubmissionCreate) :
  exists e,
    create_submission_with_answers env st submission_data = (Raise e, st).
Proof.
  unfold create_submission_with_answers.
  destruct (find_one _ (categories st)) as [category |]; [| eauto].
  destruct (created_submission_answers env 0 (sc_answers submission_data));
    simpl; [| eauto].
  destruct (Category_init category); simpl; eauto.
Qed.

Lemma handle_lookup_other (cfg : Config) (env : Env) (st : Store)
    (req : Request) (i : nat) (sub : SubmissionDoc) :
  submissions st !! i = Some sub ->
  creates_evaluation_for (sub_id sub) req = false ->
  submissions (handle cfg env st req) !! i = Some sub.
Proof.
  intros Hi Hreq. destruct req; simpl; try exact Hi.
  - unfold create_category. destruct (find_one _ _); exact Hi.
  - destruct (create_submission_with_answers_raises env st submission_data)
      as [e ->]. exact Hi.
  - unfold create_evaluation_with_answers.
    destruct (find_one _ _); [| exact Hi].
    destruct (calculated_score _ _); [| exact Hi]. simpl.
    apply update_one_lookup_other; [exact Hi |].
    simpl in Hreq. rewrite String.eqb_sym. exact Hreq.
Qed.

Lemma handle_lookup (cfg : Config) (env : Env) (st : Store) (req : Request)
    (i : nat) (sub : SubmissionDoc) :
  submissions st !! i = Some sub ->
  exists sub',
    submissions (handle cfg env st req) !! i = Some sub' /\
    same_outside_score_and_evaluations sub sub'.
Proof.
  intros Hi.
  assert (Hsame : same_outside_score_and_evaluations sub sub)
    by (repeat split).
  destruct (creates_evaluation_for (sub_id sub) req) eqn:Hreq;
    [| exists sub; split; [apply handle_lookup_other; assumption | exact Hsame]].
  destruct req; try discriminate. simpl.
  unfold create_evaluation_with_answers.
  destruct (find_one _ _); [| eauto].
  destruct (calculated_score _ _); [| eauto]. simpl.
  match goal with
  | |- context [update_one ?P ?f _] =>
      destruct (update_one_lookup P f _ _ _ Hi) as [H | [_ H]]
  end; [eauto |].
  eexists. split; [exact H |]. repeat split.
Qed.

(** C9: whatever the request, a stored submission stays in its place and
    keeps its identifier, project identifiers, completion timestamp,
    answers, category snapshot and owner; a request other than an
    evaluation creation for that submission leaves the whole record, so
    also [score] and [evaluations], as it was; and an evaluation creation
    leaves the categories and the questions alone. *)
Theorem evaluation_creation_frame (cfg : Config) (env : Env) (st : Store)
    (req : Request) (i : nat) (sub : SubmissionDoc) :
  submissions st !! i = Some sub ->
  (exists sub',
     submissions (handle cfg env st req) !! i = Some sub' /\
     same_outside_score_and_evaluations sub sub' /\
     (creates_evaluation_for (sub_id sub) req = false -> sub' = sub) /\
     ((forall evaluation_data, req <> CreateEvaluation evaluation_data) ->
      sub' = sub)) /\
  (forall evaluation_data, req = CreateEvaluation evaluation_data ->
     length (submissions (handle cfg env st req)) = length (submissions st) /\
     categories (handle cfg env st req) = categories st /\
     questions (handle cfg env st req) = questions st).
Proof.
  intros Hi. split.
  - destruct (handle_lookup cfg env st req i sub Hi) as [sub' [Hi' Hsame]].
    exists sub'. split; [exact Hi' |]. split; [exact Hsame |].
    assert (Hother : creates_evaluation_for (sub_id sub) req = false ->
                     sub' = sub).
    { intros Hreq.
      pose proof (handle_lookup_other cfg env st req i sub Hi Hreq) as H.
      congruence. }
    split; [exact Hother |].
    intros Hreq. apply Hother. destruct req; try reflexivity.
    exfalso. eapply Hreq. reflexivity.
  - intros evaluation_data ->. simpl. unfold create_evaluation_with_answers.
    destruct (find_one _ _); [| auto].
    destruct (calculated_score _ _); [| auto]. simpl.
    rewrite length_update_one. auto.
Qed.

(** An evaluation of the sample submission: the record keeps everything
    but its score and its evaluations. *)
Lemma evaluation_creation_frame_witness :
  exists sub',
    submissions
      (handle config_of_five sample_env (sample_store [] None)
         (CreateEvaluation (sample_request ["1"; "2"]))) !! 0%nat
    = Some sub' /\
    same_outside_score_and_evaluations (sample_submission [] None) sub' /\
    sub_score sub' = Some 0.2%float /\
    length (sub_evaluations sub') = 1%nat.
Proof.
  destruct (evaluation_creation_frame config_of_five sample_env
              (sample_store [] None)
              (CreateEvaluation (sample_request ["1"; "2"])) 0
              (sample_submission [] None) eq_refl)
    as [[sub' [Hi [Hsame _]]] _].
  exists sub'. split; [exact Hi |]. split; [exact Hsame |].
  vm_compute in Hi. injection Hi as <-. split; reflexivity.
Defined.

(** ** The 0.0 fallback of the aggregate *)

Lemma new_submission_score_no_score (evs : list EvaluationDoc) :
  all_evaluation_scores evs = [] -> new_submission_score evs = 0%float.
Proof. intros H. unfold new_submission_score. rewrite H. reflexivity. Qed.

Lemma all_evaluation_scores_null (evs : list EvaluationDoc) :
  Forall (fun e => ev_score e = None) evs -> all_evaluation_scores evs = [].
Proof.
  unfold all_evaluation_scores.
  induction 1 as [| e evs He _ IH]; simpl; [reflexivity |].
  rewrite He. exact IH.
Qed.

(** The sample submission has one attached evaluation, whose score is
    null, and a null score of its own; an evaluation creation on it sets
    the aggregate to the new evaluation's 0.8: the filtered list is not
    empty. *)
Example first_scored_evaluation_after_null_scores :
  Forall (fun e => ev_score e = None)
    (sub_evaluations (sample_submission [scored None] None)) /\
  sub_score <$>
    find_one (fun s => String.eqb (sub_id s) "s1")
      (submissions
         (handle config_of_five sample_env
            (sample_store [scored None] None)
            (CreateEvaluation (sample_request ["1"; "1"; "1"; "1"; "2"]))))
  = Some (Some 0.8%float).
Proof.
  split; [repeat constructor |]. vm_compute. reflexivity.
Qed.

(** A stored submission whose score is null keeps the null score, and its
    evaluations, through every request that is not an evaluation creation
    for it.  The aggregation step yields 0.0 for a list of evaluations
    without a non-null score; an evaluation creation appends the new
    evaluation, whose score is not null, before it aggregates, so the score
    it writes is never null, and it is [round(mean([score]), 4)] for the
    new evaluation's [score] when every earlier score is null. *)
Lemma null_score_until_first_evaluation (cfg : Config) (env : Env)
    (st : Store) :
  (forall req i sub,
     submissions st !! i = Some sub -> sub_score sub = None ->
     creates_evaluation_for (sub_id sub) req = false ->
     exists sub',
       submissions (handle cfg env st req) !! i = Some sub' /\
       sub_score sub' = None /\
       sub_evaluations sub' = sub_evaluations sub) /\
  (forall evs, Forall (fun e => ev_score e = None) evs ->
     new_submission_score evs = 0%float) /\
  (forall evaluation_data submission,
     find_one
       (fun s => String.eqb (sub_id s) (ec_submission_id evaluation_data))
       (submissions st) = Some submission ->
     (MAX_SCORE cfg =? 0)%float = false ->
     exists score updated,
       calculated_score cfg (ec_answers evaluation_data) = Ok score /\
       find_one
         (fun s => String.eqb (sub_id s) (ec_submission_id evaluation_data))
         (submissions (handle cfg env st (CreateEvaluation evaluation_data)))
       = Some updated /\
       all_evaluation_scores (sub_evaluations updated) <> [] /\
       sub_score updated <> None /\
       (Forall (fun e => ev_score e = None) (sub_evaluations submission) ->
        sub_score updated = Some (rounded_mean [score]))).
Proof.
  split; [| split].
  - intros req i sub Hi Hnull Hreq. exists sub.
    split; [apply handle_lookup_other; assumption | auto].
  - intros evs Hnull.
    apply new_submission_score_no_score, all_evaluation_scores_null, Hnull.
  - intros evaluation_data submission Hfind Hnz.
    destruct (submission_after_evaluation cfg env st evaluation_data
                submission Hfind Hnz)
      as (score & updated & Hscore & Hupd & Hevs & Hall & Hsc).
    exists score, updated. split; [exact Hscore |]. split; [exact Hupd |].
    split; [rewrite Hall; intros H; eapply app_cons_not_nil; eauto |].
    split; [rewrite Hsc; discriminate |].
    intros Hnull. rewrite Hsc, Hall.
    rewrite (all_evaluation_scores_null _ Hnull). reflexivity.
Qed.

(** C4: no request creates a submission.  [create_submission_with_answers]
    builds its record with a null score and no evaluations, but without
    the [owner] that [models.Submission] requires, so the request ends in
    an error before the insert and the store is as before; for the sample
    store and a request in its category, the error is the validation error
    on [owner]. *)
Theorem submission_creation_never_inserts (cfg : Config) (env : Env)
    (st : Store) (submission_data : SubmissionCreate) :
  (exists e,
     fst (create_submission_with_answers env st submission_data) = Raise e) /\
  handle cfg env st (CreateSubmission submission_data) = st /\
  create_submission_with_answers sample_env (sample_store [] None)
    sample_submission_create
  = (Raise (ValidationError "owner"), sample_store [] None).
Proof.
  destruct (create_submission_with_answers_raises env st submission_data)
    as [e He].
  split; [exists e; rewrite He; reflexivity |].
  split; [simpl; rewrite He; reflexivity | reflexivity].
Qed.

(** ** Categories *)

Lemma find_one_slug_some (cats : list CategoryDoc) (slug : string) :
  (exists c, In c cats /\ cat_slug c = slug) ->
  exists c, find_one (fun c => String.eqb (cat_slug c) slug) cats = Some c.
Proof.
  intros [c [Hin Hslug]]. unfold find_one.
  destruct (List.find _ cats) as [c' |] eqn:Hfind; [eauto |].
  pose proof (find_none _ _ Hfind c Hin) as Hc. simpl in Hc.
  apply String.eqb_neq in Hc. contradiction.
Qed.

Lemma find_one_slug_none (cats : list CategoryDoc) (slug : string) :
  (forall c, In c cats -> cat_slug c <> slug) ->
  find_one (fun c => String.eqb (cat_slug c) slug) cats = None.
Proof.
  intros Hfree. unfold find_one.
  destruct (List.find _ cats) as [c |] eqn:Hfind; [| reflexivity].
  apply find_some in Hfind as [Hin Hc]. apply String.eqb_eq in Hc.
  exfalso. exact (Hfree c Hin Hc).
Qed.

(** C8: a category-creation request whose slug is the slug of a stored
    category fails with an HTTP error (status 400) and leaves the store as
    it was; when no stored category has the slug, the request succeeds and
    the collection grows by exactly one record, the new category at its
    end, so that slugs that were pairwise distinct stay so. *)
Theorem create_category_rejects_duplicate_slug (st : Store)
    (category : CategoryCreate) :
  ((exists c, In c (categories st) /\ cat_slug c = cc_slug category) ->
   exists detail,
     create_category st category = (Raise (HTTPException 400 detail), st)) /\
  ((forall c, In c (categories st) -> cat_slug c <> cc_slug category) ->
   exists response doc,
     create_category st category
     = (Ok response, set_categories st (categories st ++ [doc])) /\
     cat_slug doc = cc_slug category /\
     cat_name doc = cc_name category /\
     cat_description doc = cc_description category /\
     cr_slug response = cc_slug category /\
     length (categories st ++ [doc]) = S (length (categories st)) /\
     (NoDup (map cat_slug (categories st)) ->
      NoDup (map cat_slug (categories st ++ [doc])))).
Proof.
  split.
  - intros Hdup. unfold create_category.
    destruct (find_one_slug_some _ _ Hdup) as [c ->]. eauto.
  - intros Hfree. unfold create_category.
    rewrite (find_one_slug_none _ _ Hfree). eexists _, _.
    split; [reflexivity |]. simpl. repeat split.
    + rewrite length_app. simpl. lia.
    + intros Hnodup. rewrite map_app. simpl.
      apply NoDup_app. split; [exact Hnodup |]. split.
      * intros slug Hin Hnew. apply list_elem_of_In in Hin.
        apply in_map_iff in Hin as [c [Hc Hin]].
        apply list_elem_of_In in Hnew. destruct Hnew as [<- | []].
        exact (Hfree c Hin Hc).
      * apply NoDup_singleton.
Qed.

(** Creating the category "climate" twice: the second request is refused
    and changes nothing. *)
Lemma create_category_rejects_duplicate_slug_witness :
  exists detail,
    create_category (sample_store [] None)
      {| cc_name := "Other"; cc_description := None; cc_slug := "climate" |}
    = (Raise (HTTPException 400 detail), sample_store [] None).
Proof.
  apply (create_category_rejects_duplicate_slug (sample_store [] None)
           {| cc_name := "Other"; cc_description := None;
              cc_slug := "climate" |}).
  exists sample_category. split; [left; reflexivity | reflexivity].
Defined.

(** ** Answers and the question catalog *)

Section Join.
Context (key : QuestionDoc -> string).

Lemma fold_insert_lookup (l : list QuestionDoc) (k : string)
    (q : QuestionDoc) :
  fold_left (fun d question => <[key question := question]> d) l
    (∅ : gmap string QuestionDoc) !! k = Some q ->
  In q l /\ key q = k.
Proof.
  induction l as [| x l IH] using rev_ind;
    [simpl; rewrite lookup_empty; discriminate |].
  rewrite fold_left_app. simpl.
  destruct (decide (key x = k)) as [<- | Hne].
  - rewrite lookup_insert_eq. intros [= <-].
    split; [apply in_or_app; right; left |]; reflexivity.
  - rewrite lookup_insert_ne by exact Hne. intros H.
    destruct (IH H) as [Hin Hk]. split; [apply in_or_app; left |]; assumption.
Qed.

Lemma fold_insert_is_Some (l : list QuestionDoc) (q : QuestionDoc) :
  In q l ->
  is_Some (fold_left (fun d question => <[key question := question]> d) l
             (∅ : gmap string QuestionDoc) !! key q).
Proof.
  induction l as [| x l IH] using rev_ind; [intros [] |].
  rewrite fold_left_app. simpl. intros Hin.
  destruct (decide (key x = key q)) as [-> | Hne].
  - rewrite lookup_insert_eq. eauto.
  - rewrite lookup_insert_ne by exact Hne.
    apply in_app_or in Hin as [Hin | [-> | []]]; [exact (IH Hin) | congruence].
Qed.

Lemma questions_dict_lookup (catalog : list QuestionDoc) (ids : list string)
    (k : string) (q : QuestionDoc) :
  questions_dict key catalog ids !! k = Some q -> In q catalog /\ key q = k.
Proof.
  intros H. apply fold_insert_lookup in H as [Hin Hk].
  apply filter_In in Hin as [Hin _]. auto.
Qed.

Lemma questions_dict_is_Some (catalog : list QuestionDoc) (ids : list string)
    (q : QuestionDoc) :
  In q catalog -> In (key q) ids ->
  is_Some (questions_dict key catalog ids !! key q).
Proof.
  intros Hin Hid. apply fold_insert_is_Some, filter_In. split; [exact Hin |].
  apply existsb_exists. exists (key q). split; [exact Hid |].
  apply String.eqb_refl.
Qed.

End Join.

Lemma answers_with_questions_filter (catalog : list QuestionDoc)
    (ids : list string) (answers : list AnswerDoc) :
  (forall a, In a answers -> In (a_question_id a) ids) ->
  map answer_of_read
    (answers_with_questions (questions_dict q_id catalog ids) answers)
  = List.filter (has_question catalog) answers /\
  Forall (question_matches catalog)
    (answers_with_questions (questions_dict q_id catalog ids) answers).
Proof.
  induction answers as [| a answers IH]; intros Hids; [split; constructor |].
  destruct IH as [IHmap IHall]; [intros b Hb; apply Hids; right; exact Hb |].
  unfold answers_with_questions in *. simpl.
  destruct (questions_dict q_id catalog ids !! a_question_id a) as [q |] eqn:Hq.
  - apply questions_dict_lookup in Hq as [Hin Hk].
    assert (Hhas : has_question catalog a = true).
    { apply existsb_exists. exists q. split; [exact Hin |].
      apply String.eqb_eq, Hk. }
    rewrite Hhas. simpl. split.
    + f_equal; [destruct a; reflexivity | exact IHmap].
    + constructor; [split; assumption | exact IHall].
  - assert (Hhas : has_question catalog a = false).
    { apply not_true_is_false. intros Hhas.
      apply existsb_exists in Hhas as [q [Hin Hk]].
      apply String.eqb_eq in Hk.
      destruct (questions_dict_is_Some q_id catalog ids q Hin) as [q' Hq'].
      - rewrite Hk. apply Hids. left. reflexivity.
      - rewrite Hk in Hq'. congruence. }
    rewrite Hhas. split; [exact IHmap | exact IHall].
Qed.

Lemma join_own_question_ids (catalog : list QuestionDoc)
    (answers : list AnswerDoc) :
  map answer_of_read
    (answers_with_questions
       (questions_dict q_id catalog (map a_question_id answers)) answers)
  = List.filter (has_question catalog) answers /\
  Forall (question_matches catalog)
    (answers_with_questions
       (questions_dict q_id catalog (map a_question_id answers)) answers).
Proof.
  apply answers_with_questions_filter. intros a Ha.
  apply in_map. exact Ha.
Qed.

(** C10: a read of an evaluation or of a submission does not fail over an
    answer without a question: it returns, in order, exactly the stored
    answers whose [question_id] is the id of a question of the catalog,
    each with such a question, and leaves the other answers out. *)
Theorem reads_omit_answers_without_question (env : Env) (st : Store) :
  (forall evaluation_id evaluation,
     find_one (fun e => String.eqb (ev_id e) evaluation_id) (evaluations st)
     = Some evaluation ->
     exists response,
       get_evaluation st evaluation_id = Ok response /\
       map answer_of_read (er_answers response)
       = List.filter (has_question (questions st)) (ev_answers evaluation) /\
       Forall (question_matches (questions st)) (er_answers response) /\
       (forall a, has_question (questions st) a = false ->
                  ~ In a (map answer_of_read (er_answers response)))) /\
  (forall submission_id submission category c,
     find_one (fun s => String.eqb (sub_id s) submission_id) (submissions st)
     = Some submission ->
     find_one
       (fun c => String.eqb (cat_slug c) (cat_slug (sub_category submission)))
       (categories st) = Some category ->
     Category_init category = Ok c ->
     exists response,
       get_submission env st submission_id = Ok response /\
       map answer_of_read (swa_answers response)
       = List.filter (has_question (questions st)) (sub_answers submission) /\
       Forall (question_matches (questions st)) (swa_answers response) /\
       (forall a, has_question (questions st) a = false ->
                  ~ In a (map answer_of_read (swa_answers response)))).
Proof.
  split.
  - intros evaluation_id evaluation Hfind. unfold get_evaluation.
    rewrite Hfind. simpl. eexists. split; [reflexivity |]. simpl.
    destruct (join_own_question_ids (questions st) (ev_answers evaluation))
      as [Hmap Hall].
    split; [exact Hmap |]. split; [exact Hall |].
    intros a Ha Hin. rewrite Hmap in Hin. apply filter_In in Hin as [_ Hin].
    congruence.
  - intros submission_id submission category c Hsub Hcat Hc.
    unfold get_submission. rewrite Hsub. simpl. rewrite Hcat. simpl.
    rewrite Hc. simpl. eexists. split; [reflexivity |]. simpl.
    destruct (join_own_question_ids (questions st) (sub_answers submission))
      as [Hmap Hall].
    split; [exact Hmap |]. split; [exact Hall |].
    intros a Ha Hin. rewrite Hmap in Hin. apply filter_In in Hin as [_ Hin].
    congruence.
Qed.

(** The sample submission answers the question "q1" and a question that is
    not in the catalog: the read returns the first answer only. *)
Lemma reads_omit_answers_without_question_witness :
  exists response,
    get_submission sample_env (sample_store [] None) "s1" = Ok response /\
    map answer_of_read (swa_answers response)
    = [ {| a_id := "a1"; a_question_id := "q1"; a_answer := "yes" |} ].
Proof.
  destruct (reads_omit_answers_without_question sample_env
              (sample_store [] None)) as [_ H].
  destruct (H "s1" (sample_submission [] None) sample_category
              {| c_name := "Climate"; c_description := None;
                 c_slug := "climate"; c_evaluators := ["0xE"] |}
              eq_refl eq_refl eq_refl)
    as (response & Hget & Hmap & _).
  exists response. split; [exact Hget |]. rewrite Hmap. reflexivity.
Defined.

(** ** Roles *)

Lemma find_one_lists_evaluator (cats : list CategoryDoc) (address : string) :
  (exists c, find_one (Onchain.lists_evaluator address) cats = Some c) <->
  (exists c evaluators,
     In c cats /\ cat_evaluators c = Some evaluators /\ In address evaluators).
Proof.
  unfold find_one, Onchain.lists_evaluator. split.
  - intros [c Hfind]. apply find_some in Hfind as [Hin Hc].
    destruct (cat_evaluators c) as [evaluators |] eqn:Hevs; [| discriminate].
    apply existsb_exists in Hc as [a [Ha Heq]]. apply String.eqb_eq in Heq.
    subst a. eauto.
  - intros (c & evaluators & Hin & Hevs & Ha).
    destruct (List.find _ cats) as [c' |] eqn:Hfind; [eauto |].
    pose proof (find_none _ _ Hfind c Hin) as Hc. simpl in Hc.
    rewrite Hevs in Hc.
    assert (existsb (String.eqb address) evaluators = true); [| congruence].
    apply existsb_exists. exists address. split; [exact Ha |].
    apply String.eqb_refl.
Qed.

(** C5: for an address with checksummed form [checksummed], [_role] returns
    "evaluator" if and only if [checksummed] is in the evaluators list of
    at least one category, and "user" otherwise; the empty address is a
    "user". *)
Theorem role_is_evaluator_iff_listed
    (to_checksum_address : string -> option string)
    (cats : list CategoryDoc) (address checksummed : string) :
  address <> "" ->
  to_checksum_address address = Some checksummed ->
  (Onchain._role to_checksum_address cats address = Ok "evaluator" <->
   exists c evaluators,
     In c cats /\ cat_evaluators c = Some evaluators /\
     In checksummed evaluators) /\
  (~ (exists c evaluators,
        In c cats /\ cat_evaluators c = Some evaluators /\
        In checksummed evaluators) ->
   Onchain._role to_checksum_address cats address = Ok "user") /\
  Onchain._role to_checksum_address cats "" = Ok "user".
Proof.
  intros Hne Hsum. apply String.eqb_neq in Hne.
  unfold Onchain._role. rewrite Hne, Hsum. simpl.
  rewrite <- find_one_lists_evaluator.
  destruct (find_one _ cats) as [c |]; repeat split.
  - eauto.
  - intros Hno. exfalso. apply Hno. eauto.
  - discriminate.
  - intros [c Hc]. discriminate.
Qed.

(** The sample category lists "0xE", the checksummed form of "0xe". *)
Lemma role_is_evaluator_iff_listed_witness :
  Onchain._role sample_checksum [sample_category] "0xe" = Ok "evaluator" /\
  Onchain._role sample_checksum [] "0xe" = Ok "user".
Proof.
  split.
  - apply (role_is_evaluator_iff_listed sample_checksum [sample_category]
             "0xe" "0xE"); [discriminate | reflexivity |].
    exists sample_category, ["0xE"].
    split; [left; reflexivity |]. split; [reflexivity | left; reflexivity].
  - reflexivity.
Defined.

(** ** Tokens *)

(** C6: [_verify_token] returns the decoded claims exactly when a token is
    present and [jwt.decode] accepts it under the settings' secret and
    algorithm; a missing token, and a token the decoder rejects for its
    signature, for its expiry or for its claims, all give the same [None],
    and nothing is raised. *)
Theorem verify_token_uniform_failure (cfg : Onchain.Settings) (Claims : Type)
    (jwt_decode : Z -> string -> string -> list string -> Onchain.Decoded Claims)
    (now : Z) :
  Onchain._verify_token cfg jwt_decode now None = None /\
  Onchain._verify_token cfg jwt_decode now (Some "") = None /\
  (forall token e,
     jwt_decode now token (Onchain.SECRET cfg) [Onchain.ALGORITHM cfg]
     = Onchain.Raises e ->
     Onchain._verify_token cfg jwt_decode now (Some token) = None) /\
  (forall token claims,
     Onchain._verify_token cfg jwt_decode now (Some token) = Some claims <->
     token <> "" /\
     jwt_decode now token (Onchain.SECRET cfg) [Onchain.ALGORITHM cfg]
     = Onchain.Claims_of claims).
Proof.
  split; [reflexivity |]. split; [reflexivity |]. split.
  - intros token e He. unfold Onchain._verify_token. rewrite He.
    destruct (String.eqb token ""); reflexivity.
  - intros token claims. unfold Onchain._verify_token.
    destruct (String.eqb_spec token "") as [-> | Hne].
    + split; [discriminate | intros [[] _]; reflexivity].
    + destruct (jwt_decode now token _ _) as [c | e].
      * split; [intros [= ->]; auto | intros [_ [= ->]]; reflexivity].
      * split; [discriminate | intros [_ H]; discriminate].
Qed.

(** The sample decoder: the signed token yields its claims until it
    expires; afterwards, under another secret, and for a missing token
    the answer is the same [None]. *)
Lemma verify_token_uniform_failure_witness :
  Onchain._verify_token sample_settings sample_decode 1000 (Some "signed")
  = Some [("sub", "0xE"); ("role", "evaluator")] /\
  Onchain._verify_token sample_settings sample_decode 3000 (Some "signed")
  = None /\
  Onchain._verify_token sample_settings sample_decode 1000 (Some "forged")
  = None /\
  Onchain._verify_token sample_settings sample_decode 1000 None = None.
Proof.
  destruct (verify_token_uniform_failure sample_settings _ sample_decode 1000)
    as (Hnone & _ & Hraise & Hok).
  destruct (verify_token_uniform_failure sample_settings _ sample_decode 3000)
    as (_ & _ & Hraise' & _).
  split; [apply Hok; split; [discriminate | reflexivity] |].
  split; [apply (Hraise' _ Onchain.ExpiredSignatureError); reflexivity |].
  split; [apply (Hraise _ Onchain.InvalidSignature); reflexivity |].
  exact Hnone.
Defined.

(** ** Nonces *)

Lemma clean_fold_lookup (now : float) (items : list (string * float)) :
  forall (acc : gmap string float) (n : string),
  NoDup (items.*1) ->
  fold_left
    (fun acc item =>
       if (snd item <? now)%float then delete (fst item) acc else acc)
    items acc !! n
  = match (list_to_map items : gmap string float) !! n with
    | Some e => if (e <? now)%float then None else acc !! n
    | None => acc !! n
    end.
Proof.
  induction items as [| [k e] items IH]; intros acc n Hnodup; simpl.
  - rewrite lookup_empty. reflexivity.
  - apply NoDup_cons in Hnodup as [Hk Hnodup]. rewrite (IH _ _ Hnodup).
    destruct (decide (k = n)) as [-> | Hne].
    + rewrite lookup_insert_eq.
      rewrite (not_elem_of_list_to_map_1 _ _ Hk).
      destruct (e <? now)%float; [apply lookup_delete_eq | reflexivity].
    + rewrite lookup_insert_ne by exact Hne.
      destruct (e <? now)%float; [rewrite lookup_delete_ne by exact Hne |];
        reflexivity.
Qed.

Lemma clean_nonces_lookup (now : float) (nonces : gmap string float)
    (n : string) :
  Onchain._clean_nonces now nonces !! n
  = match nonces !! n with
    | Some e => if (e <? now)%float then None else Some e
    | None => None
    end.
Proof.
  unfold Onchain._clean_nonces.
  rewrite clean_fold_lookup by apply NoDup_fst_map_to_list.
  rewrite list_to_map_to_list.
  destruct (nonces !! n) as [e |] eqn:Hn; rewrite ?Hn; reflexivity.
Qed.




(** * More properties of the handlers *)

(** ** What a request leaves alone *)

Lemma create_evaluation_store (cfg : Config) (env : Env) (st : Store)
    (evaluation_data : EvaluationCreate) :
  handle cfg env st (CreateEvaluation evaluation_data) = st \/
  exists submission score,
    find_one
      (fun s => String.eqb (sub_id s) (ec_submission_id evaluation_data))
      (submissions st) = Some submission /\
    calculated_score cfg (ec_answers evaluation_data) = Ok score /\
    handle cfg env st (CreateEvaluation evaluation_data)
    = set_evaluations
        (set_submissions st
           (update_one
              (fun s => String.eqb (sub_id s) (ec_submission_id evaluation_data))
              (set_evaluations_score
                 (sub_evaluations submission
                  ++ [new_evaluation env evaluation_data score])
                 (new_submission_score
                    (sub_evaluations submission
                     ++ [new_evaluation env evaluation_data score])))
              (submissions st)))
        (insert_one (new_evaluation env evaluation_data score)
           (evaluations st)).
Proof.
  simpl. unfold create_evaluation_with_answers.
  destruct (find_one _ (submissions st)) as [submission |]; [| left; reflexivity].
  destruct (calculated_score cfg _) as [score |]; [| left; reflexivity].
  right. exists submission, score. auto.
Qed.

Lemma handle_questions (cfg : Config) (env : Env) (st : Store)
    (req : Request) :
  questions (handle cfg env st req) = questions st.
Proof.
  destruct req; try reflexivity.
  - simpl. unfold create_category. destruct (find_one _ _); reflexivity.
  - simpl.
    destruct (create_submission_with_answers_raises env st submission_data)
      as [e ->]. reflexivity.
  - destruct (create_evaluation_store cfg env st evaluation_data)
      as [-> | (submission & score & _ & _ & ->)]; reflexivity.
Qed.

Lemma handle_evaluations (cfg : Config) (env : Env) (st : Store)
    (req : Request) :
  evaluations st `prefix_of` evaluations (handle cfg env st req).
Proof.
  destruct req; try reflexivity.
  - simpl. unfold create_category. destruct (find_one _ _); reflexivity.
  - simpl.
    destruct (create_submission_with_answers_raises env st submission_data)
      as [e ->]. reflexivity.
  - destruct (create_evaluation_store cfg env st evaluation_data)
      as [-> | (submission & score & _ & _ & ->)]; [reflexivity |].
    simpl. apply prefix_app_r. reflexivity.
Qed.

Lemma handle_categories (cfg : Config) (env : Env) (st : Store)
    (req : Request) :
  categories (handle cfg env st req) = categories st \/
  exists category,
    req = CreateCategory category /\
    (forall c, In c (categories st) -> cat_slug c <> cc_slug category) /\
    categories (handle cfg env st req)
    = categories st
      ++ [ {| cat_name := cc_name category;
              cat_description := cc_description category;
              cat_slug := cc_slug category;
              cat_evaluators := None |} ].
Proof.
  destruct req; try (left; reflexivity).
  - simpl. unfold create_category.
    destruct (find_one _ (categories st)) eqn:Hfind; [left; reflexivity |].
    right. exists category. split; [reflexivity |]. split; [| reflexivity].
    intros c Hin Hslug. pose proof (find_none _ _ Hfind c Hin) as Hc.
    simpl in Hc. apply String.eqb_neq in Hc. contradiction.
  - left. simpl.
    destruct (create_submission_with_answers_raises env st submission_data)
      as [e ->]. reflexivity.
  - left.
    destruct (create_evaluation_store cfg env st evaluation_data)
      as [-> | (submission & score & _ & _ & ->)]; reflexivity.
Qed.

Lemma update_one_lookup_found {A : Type} (P : A -> bool) (set : A -> A)
    (coll : list A) (i : nat) (doc : A) :
  coll !! i = Some doc ->
  update_one P set coll !! i = Some doc \/
  (find_one P coll = Some doc /\ update_one P set coll !! i = Some (set doc)).
Proof.
  unfold find_one. revert i.
  induction coll as [| d rest IH]; intros i; [discriminate |].
  simpl. destruct (P d) eqn:Hd.
  - destruct i as [| i]; simpl; [| auto].
    intros [= ->]. right. auto.
  - destruct i as [| i]; simpl; [auto |]. apply IH.
Qed.

Lemma handle_embedded_evaluations (cfg : Config) (env : Env) (st : Store)
    (req : Request) (i : nat) (s : SubmissionDoc) :
  submissions st !! i = Some s ->
  exists s',
    submissions (handle cfg env st req) !! i = Some s' /\
    same_outside_score_and_evaluations s s' /\
    sub_evaluations s `prefix_of` sub_evaluations s'.
Proof.
  intros Hi.
  assert (Hsame : same_outside_score_and_evaluations s s) by (repeat split).
  destruct (creates_evaluation_for (sub_id s) req) eqn:Hreq;
    [| exists s; split; [apply handle_lookup_other; assumption | auto]].
  destruct req; try discriminate.
  destruct (create_evaluation_store cfg env st evaluation_data)
    as [-> | (submission & score & Hfind & _ & ->)]; [eauto |].
  simpl.
  match goal with
  | |- context [update_one ?P ?f _] =>
      destruct (update_one_lookup_found P f _ _ _ Hi) as [H | [Hs H]]
  end; [eauto |].
  rewrite Hfind in Hs. injection Hs as ->.
  eexists. split; [exact H |]. split; [repeat split |].
  simpl. apply prefix_app_r. reflexivity.
Qed.

Lemma run_cons (cfg : Config) (st : Store) (er : Env * Request)
    (reqs : list (Env * Request)) :
  run cfg st (er :: reqs) = run cfg (handle cfg (fst er) st (snd er)) reqs.
Proof. reflexivity. Qed.

(** Whatever the sequence of requests: the question catalog is as it was;
    the categories and the evaluations collection have only grown at their
    ends; and every stored submission is in its place with the fields it
    had, but for its score, and with the evaluations it had at the head of
    its evaluations.  Nothing stored is removed or rewritten except a
    submission's score. *)
Theorem requests_only_append (cfg : Config) (st : Store)
    (reqs : list (Env * Request)) :
  questions (run cfg st reqs) = questions st /\
  categories st `prefix_of` categories (run cfg st reqs) /\
  evaluations st `prefix_of` evaluations (run cfg st reqs) /\
  (forall i s, submissions st !! i = Some s ->
     exists s',
       submissions (run cfg st reqs) !! i = Some s' /\
       same_outside_score_and_evaluations s s' /\
       sub_evaluations s `prefix_of` sub_evaluations s').
Proof.
  revert st. induction reqs as [| [env req] reqs IH]; intros st.
  - simpl. repeat split; try reflexivity.
    intros i s Hi. exists s. repeat split; [exact Hi | reflexivity].
  - rewrite run_cons. simpl fst. simpl snd.
    destruct (IH (handle cfg env st req)) as (Hq & Hc & He & Hs).
    split; [rewrite Hq; apply handle_questions |].
    split.
    { etransitivity; [| exact Hc].
      destruct (handle_categories cfg env st req)
        as [-> | (category & _ & _ & ->)];
        [reflexivity | apply prefix_app_r; reflexivity]. }
    split; [etransitivity; [apply handle_evaluations | exact He] |].
    intros i s Hi.
    destruct (handle_embedded_evaluations cfg env st req i s Hi)
      as (s1 & Hi1 & Hsame1 & Hpre1).
    destruct (Hs i s1 Hi1) as (s' & Hi' & Hsame' & Hpre').
    exists s'. split; [exact Hi' |]. split.
    + unfold same_outside_score_and_evaluations in *.
      destruct Hsame1 as (? & ? & ? & ? & ? & ? & ? & ?).
      destruct Hsame' as (? & ? & ? & ? & ? & ? & ? & ?).
      repeat split; congruence.
    + etransitivity; eassumption.
Qed.

(** On the sample store, after the sample requests: one category more, two
    evaluations in the collection and in the submission, the questions as
    before. *)
Example sample_requests_run :
  map cat_slug (categories (run config_of_five (sample_store [] None)
                              sample_requests)) = ["climate"; "water"] /\
  map ev_score (evaluations (run config_of_five (sample_store [] None)
                               sample_requests))
  = [Some 0.8%float; Some 0.6%float] /\
  map (fun s => (sub_score s, length (sub_evaluations s)))
    (submissions (run config_of_five (sample_store [] None) sample_requests))
  = [(Some 0.7%float, 2%nat)] /\
  questions (run config_of_five (sample_store [] None) sample_requests)
  = questions (sample_store [] None).
Proof. vm_compute. repeat split. Qed.

(** ** Categories and roles over sequences of requests *)

Lemma handle_slugs_distinct (cfg : Config) (env : Env) (st : Store)
    (req : Request) :
  NoDup (map cat_slug (categories st)) ->
  NoDup (map cat_slug (categories (handle cfg env st req))).
Proof.
  intros Hnodup.
  destruct (handle_categories cfg env st req)
    as [-> | (category & _ & Hfree & ->)]; [exact Hnodup |].
  rewrite map_app. simpl. apply NoDup_app. split; [exact Hnodup |]. split.
  - intros slug Hin Hnew. apply list_elem_of_In in Hin.
    apply in_map_iff in Hin as [c [Hc Hin]].
    apply list_elem_of_In in Hnew. destruct Hnew as [<- | []].
    exact (Hfree c Hin Hc).
  - apply NoDup_singleton.
Qed.

(** Slugs that are pairwise distinct stay pairwise distinct through every
    sequence of requests. *)
Theorem slugs_stay_distinct (cfg : Config) (st : Store)
    (reqs : list (Env * Request)) :
  NoDup (map cat_slug (categories st)) ->
  NoDup (map cat_slug (categories (run cfg st reqs))).
Proof.
  revert st. induction reqs as [| [env req] reqs IH]; intros st Hnodup;
    [exact Hnodup |].
  rewrite run_cons. apply IH, handle_slugs_distinct, Hnodup.
Qed.

Lemma slugs_stay_distinct_witness :
  NoDup (map cat_slug
           (categories
              (run config_of_five (sample_store [] None)
                 (sample_requests ++ sample_requests)))).
Proof.
  apply (slugs_stay_distinct config_of_five (sample_store [] None)
           (sample_requests ++ sample_requests)).
  apply NoDup_singleton.
Defined.

Lemma find_one_app_miss {A : Type} (P : A -> bool) (coll : list A) (doc : A) :
  P doc = false -> find_one P (coll ++ [doc]) = find_one P coll.
Proof.
  intros Hdoc. unfold find_one.
  induction coll as [| d rest IH]; simpl; [rewrite Hdoc; reflexivity |].
  destruct (P d); [reflexivity | exact IH].
Qed.

Lemma handle_role (to_checksum_address : string -> option string)
    (cfg : Config) (env : Env) (st : Store) (req : Request)
    (address : string) :
  Onchain._role to_checksum_address (categories (handle cfg env st req)) address
  = Onchain._role to_checksum_address (categories st) address.
Proof.
  destruct (handle_categories cfg env st req)
    as [-> | (category & _ & _ & ->)]; [reflexivity |].
  unfold Onchain._role. destruct (String.eqb address ""); [reflexivity |].
  destruct (to_checksum_address address) as [checksummed |]; [| reflexivity].
  rewrite find_one_app_miss; reflexivity.
Qed.

(** No sequence of requests changes the role of an address: the only
    request that adds a category adds it without evaluators. *)
Theorem requests_keep_roles (to_checksum_address : string -> option string)
    (cfg : Config) (st : Store) (reqs : list (Env * Request))
    (address : string) :
  Onchain._role to_checksum_address (categories (run cfg st reqs)) address
  = Onchain._role to_checksum_address (categories st) address.
Proof.
  revert st. induction reqs as [| [env req] reqs IH]; intros st;
    [reflexivity |].
  rewrite run_cons, IH. apply handle_role.
Qed.

(** An address that is an evaluator stays one when categories are added,
    wherever they are added; and [_role] raises exactly for a non-empty
    string that has no checksummed form, whatever the categories. *)
Theorem role_grows_with_categories
    (to_checksum_address : string -> option string)
    (cats cats' : list CategoryDoc) (address : string) :
  (forall c, In c cats -> In c cats') ->
  (Onchain._role to_checksum_address cats address = Ok "evaluator" ->
   Onchain._role to_checksum_address cats' address = Ok "evaluator") /\
  (Onchain._role to_checksum_address cats address = Raise ValueError <->
   address <> "" /\ to_checksum_address address = None) /\
  (forall e, Onchain._role to_checksum_address cats address = Raise e ->
             Onchain._role to_checksum_address cats' address = Raise e).
Proof.
  intros Hincl. unfold Onchain._role.
  destruct (String.eqb_spec address "") as [-> | Hne].
  - split; [discriminate |]. split; [| discriminate].
    split; [discriminate | intros [[] _]; reflexivity].
  - destruct (to_checksum_address address) as [checksummed |].
    + split.
      * destruct (find_one _ cats) as [c |] eqn:Hfind; [| discriminate].
        intros _.
        assert (Hex : exists c', find_one (Onchain.lists_evaluator checksummed)
                                   cats' = Some c').
        { apply find_one_lists_evaluator.
          assert (Hold : exists c0, find_one
                           (Onchain.lists_evaluator checksummed) cats = Some c0)
            by eauto.
          apply find_one_lists_evaluator in Hold
            as (c0 & evaluators & Hin & Hevs & Ha).
          exists c0, evaluators. auto. }
        destruct Hex as [c' ->]. reflexivity.
      * split.
        -- destruct (find_one _ cats); split; try discriminate;
             intros [_ H]; discriminate.
        -- intros e. destruct (find_one _ cats); discriminate.
    + split; [discriminate |]. split; [split; auto |]. auto.
Qed.

(** The sample category lists "0xE"; so does any collection that holds
    it. *)
Lemma role_grows_with_categories_witness :
  Onchain._role sample_checksum
    [ {| cat_name := "Water"; cat_description := None; cat_slug := "water";
         cat_evaluators := None |}; sample_category ] "0xe"
  = Ok "evaluator".
Proof.
  apply (role_grows_with_categories sample_checksum [sample_category]
           [ {| cat_name := "Water"; cat_description := None;
                cat_slug := "water"; cat_evaluators := None |};
             sample_category ] "0xe").
  - intros c Hc. right. exact Hc.
  - reflexivity.
Defined.

(** ** Evaluation creation: failures and what is stored *)



Lemma imap_answers (env : Env) (answers : list EvaluationAnswerCreate) :
  forall name : nat -> string,
  map a_question_id
    (imap (fun k answer_data =>
             {| a_id := name k;
                a_question_id := eac_question_id answer_data;
                a_answer := eac_answer answer_data |}) answers)
  = map eac_question_id answers /\
  map a_answer
    (imap (fun k answer_data =>
             {| a_id := name k;
                a_question_id := eac_question_id answer_data;
                a_answer := eac_answer answer_data |}) answers)
  = map eac_answer answers.
Proof.
  induction answers as [| a answers IH]; intros name; [split; reflexivity |].
  simpl. destruct (IH (name ∘ S)) as [Hq Ha]. split; f_equal; assumption.
Qed.

(** A successful evaluation creation stores one document twice: it is
    appended to the evaluations collection and to the evaluations of the
    submission.  The document carries the request's evaluator and
    submission id, the computed score, and every submitted answer in
    order, whatever its code. *)
Theorem evaluation_stored_twice (cfg : Config) (env : Env) (st : Store)
    (evaluation_data : EvaluationCreate) (response : EvaluationWithAnswersRead)
    (st' : Store) :
  create_evaluation_with_answers cfg env st evaluation_data
  = (Ok response, st') ->
  exists submission updated evaluation score,
    find_one
      (fun s => String.eqb (sub_id s) (ec_submission_id evaluation_data))
      (submissions st) = Some submission /\
    find_one
      (fun s => String.eqb (sub_id s) (ec_submission_id evaluation_data))
      (submissions st') = Some updated /\
    evaluations st' = evaluations st ++ [evaluation] /\
    sub_evaluations updated = sub_evaluations submission ++ [evaluation] /\
    calculated_score cfg (ec_answers evaluation_data) = Ok score /\
    ev_score evaluation = Some score /\
    er_score response = Some score /\
    ev_evaluator evaluation = ec_evaluator evaluation_data /\
    ev_submission_id evaluation = ec_submission_id evaluation_data /\
    er_id response = ev_id evaluation /\
    map a_question_id (ev_answers evaluation)
    = map eac_question_id (ec_answers evaluation_data) /\
    map a_answer (ev_answers evaluation)
    = map eac_answer (ec_answers evaluation_data).
Proof.
  unfold create_evaluation_with_answers.
  destruct (find_one _ (submissions st)) as [submission |] eqn:Hfind;
    [| discriminate].
  destruct (calculated_score cfg _) as [score |] eqn:Hscore; [| discriminate].
  intros [= <- <-].
  eexists submission, _, (new_evaluation env evaluation_data score), score.
  split; [reflexivity |]. simpl.
  split; [apply find_one_update_one; [reflexivity | exact Hfind] |].
  simpl. repeat split; apply imap_answers; exact env.
Qed.

Lemma evaluation_stored_twice_witness :
  exists submission updated evaluation score,
    find_one
      (fun s => String.eqb (sub_id s)
                  (ec_submission_id (sample_request ["1"; "9"])))
      (submissions (sample_store [] None)) = Some submission /\
    find_one
      (fun s => String.eqb (sub_id s)
                  (ec_submission_id (sample_request ["1"; "9"])))
      (submissions
         (snd (create_evaluation_with_answers config_of_five sample_env
                 (sample_store [] None) (sample_request ["1"; "9"]))))
    = Some updated /\
    evaluations
      (snd (create_evaluation_with_answers config_of_five sample_env
              (sample_store [] None) (sample_request ["1"; "9"])))
    = evaluations (sample_store [] None) ++ [evaluation] /\
    sub_evaluations updated = sub_evaluations submission ++ [evaluation] /\
    calculated_score config_of_five (ec_answers (sample_request ["1"; "9"]))
    = Ok score /\
    map a_answer (ev_answers evaluation) = ["1"; "9"].
Proof.
  edestruct (evaluation_stored_twice config_of_five sample_env
               (sample_store [] None) (sample_request ["1"; "9"]))
    as (submission & updated & evaluation & score & H1 & H2 & H3 & H4 & H5
        & _ & _ & _ & _ & _ & _ & H6);
    [vm_compute; reflexivity |].
  exists submission, updated, evaluation, score.
  repeat split; assumption.
Defined.

(** ** Reading back what an evaluation creation stored *)

Lemma find_one_app_new {A : Type} (P : A -> bool) (coll : list A) (doc : A) :
  find_one P coll = None -> P doc = true ->
  find_one P (coll ++ [doc]) = Some doc.
Proof.
  intros Hnone Hdoc. unfold find_one in *.
  induction coll as [| d rest IH]; simpl in *; [rewrite Hdoc; reflexivity |].
  destruct (P d); [discriminate | apply IH, Hnone].
Qed.

Lemma create_evaluation_ok (cfg : Config) (env : Env) (st : Store)
    (evaluation_data : EvaluationCreate) (response : EvaluationWithAnswersRead)
    (st' : Store) :
  create_evaluation_with_answers cfg env st evaluation_data
  = (Ok response, st') ->
  exists submission score,
    find_one
      (fun s => String.eqb (sub_id s) (ec_submission_id evaluation_data))
      (submissions st) = Some submission /\
    calculated_score cfg (ec_answers evaluation_data) = Ok score /\
    response = evaluation_read st (new_evaluation env evaluation_data score) /\
    questions st' = questions st /\
    categories st' = categories st /\
    evaluations st'
    = evaluations st ++ [new_evaluation env evaluation_data score] /\
    submissions st'
    = update_one
        (fun s => String.eqb (sub_id s) (ec_submission_id evaluation_data))
        (set_evaluations_score
           (sub_evaluations submission
            ++ [new_evaluation env evaluation_data score])
           (new_submission_score
              (sub_evaluations submission
               ++ [new_evaluation env evaluation_data score])))
        (submissions st).
Proof.
  unfold create_evaluation_with_answers.
  destruct (find_one _ (submissions st)) as [submission |] eqn:Hfind;
    [| discriminate].
  destruct (calculated_score cfg _) as [score |] eqn:Hscore; [| discriminate].
  intros [= <- <-]. exists submission, score. repeat split; reflexivity.
Qed.

Lemma evaluation_read_questions (st st' : Store) (evaluation : EvaluationDoc) :
  questions st' = questions st ->
  evaluation_read st' evaluation = evaluation_read st evaluation.
Proof. intros H. unfold evaluation_read. rewrite H. reflexivity. Qed.

(** After a successful evaluation creation, [GET /evaluations/{id}] finds
    the new evaluation under the id of the response, provided the id drawn
    for it was not the id of a stored evaluation, and returns the id, the
    evaluator, the submission id, the score and the answers of the
    response: the evaluator and the submission id of the request, the
    computed score, and the answers whose question the catalog holds.  The
    date is left out of the comparison: the response carries the clock
    reading of the creation, the read what the store kept of it. *)
Theorem created_evaluation_reads_back (cfg : Config) (env : Env) (st : Store)
    (evaluation_data : EvaluationCreate) (response : EvaluationWithAnswersRead)
    (st' : Store) :
  create_evaluation_with_answers cfg env st evaluation_data
  = (Ok response, st') ->
  find_one (fun e => String.eqb (ev_id e) (er_id response)) (evaluations st)
  = None ->
  exists read score,
    get_evaluation st' (er_id response) = Ok read /\
    calculated_score cfg (ec_answers evaluation_data) = Ok score /\
    er_id read = er_id response /\
    er_evaluator read = er_evaluator response /\
    er_evaluator read = ec_evaluator evaluation_data /\
    er_submission_id read = er_submission_id response /\
    er_submission_id read = ec_submission_id evaluation_data /\
    er_score read = er_score response /\
    er_score read = Some score /\
    er_answers read = er_answers response /\
    map ar_question_id (er_answers read)
    = List.filter
        (fun question_id =>
           existsb (fun q => String.eqb (q_id q) question_id) (questions st))
        (map eac_question_id (ec_answers evaluation_data)).
Proof.
  intros Hrun Hfresh.
  destruct (create_evaluation_ok _ _ _ _ _ _ Hrun)
    as (submission & score & _ & Hscore & -> & Hq & _ & He & _).
  set (evaluation := new_evaluation env evaluation_data score) in *.
  exists (evaluation_read st evaluation), score.
  split.
  { unfold get_evaluation. rewrite He.
    rewrite (find_one_app_new _ _ _ Hfresh) by apply String.eqb_refl.
    simpl. rewrite (evaluation_read_questions st st' _ Hq). reflexivity. }
  split; [exact Hscore |].
  repeat (split; [reflexivity |]).
  destruct (join_own_question_ids (questions st) (ev_answers evaluation))
    as [Hmap _].
  assert (Hids : map a_question_id (ev_answers evaluation)
                 = map eac_question_id (ec_answers evaluation_data))
    by (apply imap_answers; exact env).
  simpl. rewrite <- Hids.
  transitivity (map a_question_id
                  (map answer_of_read
                     (answers_with_questions
                        (questions_dict q_id (questions st)
                           (map a_question_id (ev_answers evaluation)))
                        (ev_answers evaluation)))).
  { rewrite map_map. reflexivity. }
  rewrite Hmap. clear.
  induction (ev_answers evaluation) as [| a l IH]; [reflexivity |].
  simpl. unfold has_question at 1.
  destruct (existsb _ (questions st)); simpl; f_equal; exact IH.
Qed.

(** The response to a creation also lists, of the submitted answers, those
    and only those whose question is in the catalog, while the stored
    evaluation keeps them all. *)
Theorem creation_response_omits_unmatched (cfg : Config) (env : Env)
    (st : Store) (evaluation_data : EvaluationCreate)
    (response : EvaluationWithAnswersRead) (st' : Store) :
  create_evaluation_with_answers cfg env st evaluation_data
  = (Ok response, st') ->
  map ar_question_id (er_answers response)
  = List.filter
      (fun question_id =>
         existsb (fun q => String.eqb (q_id q) question_id) (questions st))
      (map eac_question_id (ec_answers evaluation_data)) /\
  Forall (question_matches (questions st)) (er_answers response) /\
  (exists evaluation,
     evaluations st' = evaluations st ++ [evaluation] /\
     length (ev_answers evaluation) = length (ec_answers evaluation_data) /\
     map answer_of_read (er_answers response)
     = List.filter (has_question (questions st)) (ev_answers evaluation)).
Proof.
  intros Hrun.
  destruct (create_evaluation_ok _ _ _ _ _ _ Hrun)
    as (submission & score & _ & _ & -> & _ & _ & He & _).
  set (evaluation := new_evaluation env evaluation_data score) in *.
  destruct (join_own_question_ids (questions st) (ev_answers evaluation))
    as [Hmap Hall].
  assert (Hids : map a_question_id (ev_answers evaluation)
                 = map eac_question_id (ec_answers evaluation_data))
    by (apply imap_answers; exact env).
  split; [| split; [exact Hall | exists evaluation]].
  - simpl. rewrite <- Hids.
    transitivity (map a_question_id
                    (map answer_of_read
                       (answers_with_questions
                          (questions_dict q_id (questions st)
                             (map a_question_id (ev_answers evaluation)))
                          (ev_answers evaluation)))).
    { rewrite map_map. reflexivity. }
    rewrite Hmap. clear.
    induction (ev_answers evaluation) as [| a l IH]; [reflexivity |].
    simpl. unfold has_question at 1.
    destruct (existsb _ (questions st)); simpl; f_equal; exact IH.
  - split; [exact He |]. split; [| exact Hmap].
    rewrite <- (length_map a_question_id), Hids, length_map. reflexivity.
Qed.

(** An evaluation of the sample submission answers "q1", which the
    catalog holds, and "q9", which it does not. *)
Lemma creation_response_omits_unmatched_witness :
  exists response st',
    create_evaluation_with_answers config_of_five sample_env
      (sample_store [] None)
      {| ec_evaluator := "0xE"; ec_submission_id := "s1";
         ec_answers :=
           [ {| eac_question_id := "q1"; eac_answer := "1" |};
             {| eac_question_id := "q9"; eac_answer := "2" |} ] |}
    = (Ok response, st') /\
    map ar_question_id (er_answers response) = ["q1"].
Proof.
  eexists _, _.
  assert (Hrun : create_evaluation_with_answers config_of_five sample_env
                   (sample_store [] None)
                   {| ec_evaluator := "0xE"; ec_submission_id := "s1";
                      ec_answers :=
                        [ {| eac_question_id := "q1"; eac_answer := "1" |};
                          {| eac_question_id := "q9"; eac_answer := "2" |} ] |}
                 = (Ok _, _)) by (vm_compute; reflexivity).
  split; [exact Hrun |].
  destruct (creation_response_omits_unmatched _ _ _ _ _ _ Hrun) as [H _].
  rewrite H. reflexivity.
Defined.

(** An evaluation of the sample submission is read back under its id,
    with the score 0.2 of one agreeing answer out of five. *)
Lemma created_evaluation_reads_back_witness :
  exists response st' read,
    create_evaluation_with_answers config_of_five sample_env
      (sample_store [] None) (sample_request ["1"; "2"])
    = (Ok response, st') /\
    get_evaluation st' (er_id response) = Ok read /\
    er_score read = Some 0.2%float /\
    er_answers read = er_answers response.
Proof.
  eexists _, _.
  assert (Hrun : create_evaluation_with_answers config_of_five sample_env
                   (sample_store [] None) (sample_request ["1"; "2"])
                 = (Ok _, _)) by (vm_compute; reflexivity).
  assert (Hfresh : find_one
                     (fun e => String.eqb (ev_id e) "c-uuid")
                     (evaluations (sample_store [] None)) = None)
    by reflexivity.
  destruct (created_evaluation_reads_back _ _ _ _ _ _ Hrun Hfresh)
    as (read & score & Hget & Hscore & _ & _ & _ & _ & _ & _ & Hs & Ha & _).
  exists read. split; [exact Hrun |]. split; [exact Hget |].
  split; [| exact Ha].
  rewrite Hs. vm_compute in Hscore. injection Hscore as <-. reflexivity.
Defined.

Lemma find_updated_submission (coll : list SubmissionDoc)
    (submission_id : string) (evs : list EvaluationDoc) (score : float)
    (submission : SubmissionDoc) :
  find_one (fun s => String.eqb (sub_id s) submission_id) coll
  = Some submission ->
  find_one (fun s => String.eqb (sub_id s) submission_id)
    (update_one (fun s => String.eqb (sub_id s) submission_id)
       (set_evaluations_score evs score) coll)
  = Some (set_evaluations_score evs score submission).
Proof. apply find_one_update_one. reflexivity. Qed.

(** After a successful evaluation creation, the evaluations listed for the
    submission are those listed before, followed by one entry for the new
    evaluation, which has the id, the evaluator, the submission id, the
    score and the answers of the creation's response.  The date is left
    out of the comparison, as for the read of one evaluation. *)
Theorem created_evaluation_is_listed (cfg : Config) (env : Env) (st : Store)
    (evaluation_data : EvaluationCreate) (response : EvaluationWithAnswersRead)
    (st' : Store) (reads : list EvaluationWithAnswersRead) :
  create_evaluation_with_answers cfg env st evaluation_data
  = (Ok response, st') ->
  get_evaluations_by_submission st (ec_submission_id evaluation_data)
  = Ok reads ->
  exists last,
    get_evaluations_by_submission st' (ec_submission_id evaluation_data)
    = Ok (reads ++ [last]) /\
    er_id last = er_id response /\
    er_evaluator last = er_evaluator response /\
    er_submission_id last = er_submission_id response /\
    er_submission_id last = ec_submission_id evaluation_data /\
    er_score last = er_score response /\
    er_answers last = er_answers response.
Proof.
  intros Hrun Hreads.
  destruct (create_evaluation_ok _ _ _ _ _ _ Hrun)
    as (submission & score & Hfind & _ & -> & Hq & _ & _ & Hs).
  exists (evaluation_read st (new_evaluation env evaluation_data score)).
  split; [| repeat split; reflexivity].
  unfold get_evaluations_by_submission in *. rewrite Hfind in Hreads.
  simpl in Hreads. injection Hreads as <-.
  rewrite Hs. rewrite (find_updated_submission _ _ _ _ _ Hfind).
  simpl. rewrite map_app. simpl.
  rewrite (evaluation_read_questions st st' _ Hq). f_equal. f_equal.
  apply map_ext. intros e. apply evaluation_read_questions, Hq.
Qed.

(** The first evaluation of the sample submission is the one entry of the
    list afterwards. *)
Lemma created_evaluation_is_listed_witness :
  exists response st' last,
    create_evaluation_with_answers config_of_five sample_env
      (sample_store [] None) (sample_request ["1"; "2"])
    = (Ok response, st') /\
    get_evaluations_by_submission st' "s1" = Ok [last] /\
    er_id last = er_id response /\
    er_answers last = er_answers response.
Proof.
  eexists _, _.
  assert (Hrun : create_evaluation_with_answers config_of_five sample_env
                   (sample_store [] None) (sample_request ["1"; "2"])
                 = (Ok _, _)) by (vm_compute; reflexivity).
  assert (Hreads : get_evaluations_by_submission (sample_store [] None)
                     (ec_submission_id (sample_request ["1"; "2"]))
                   = Ok []) by reflexivity.
  destruct (created_evaluation_is_listed _ _ _ _ _ _ [] Hrun Hreads)
    as (last & Hlist & Hid & _ & _ & _ & _ & Ha).
  exists last. split; [exact Hrun |]. split; [exact Hlist |].
  split; [exact Hid | exact Ha].
Defined.



Lemma evaluations_of_app (st st' : Store) (e : EvaluationDoc)
    (submission_id : string) :
  evaluations st' = evaluations st ++ [e] ->
  evaluations_of st' submission_id
  = evaluations_of st submission_id
    ++ (if String.eqb (ev_submission_id e) submission_id then [e] else []).
Proof.
  intros H. unfold evaluations_of. rewrite H, List.filter_app. reflexivity.
Qed.



(** ** Invariants of the store *)

Lemma update_one_unique_id (coll : list SubmissionDoc) (submission_id : string)
    (set : SubmissionDoc -> SubmissionDoc) :
  NoDup (map sub_id coll) ->
  update_one (fun s => String.eqb (sub_id s) submission_id) set coll
  = map (fun s => if String.eqb (sub_id s) submission_id then set s else s)
      coll.
Proof.
  induction coll as [| d rest IH]; intros Hnodup; [reflexivity |].
  simpl in *. apply NoDup_cons in Hnodup as [Hd Hnodup].
  destruct (String.eqb_spec (sub_id d) submission_id) as [Heq | Hne];
    [| rewrite (IH Hnodup); reflexivity].
  f_equal. clear IH Hnodup. subst submission_id.
  induction rest as [| x rest IH]; [reflexivity |]. simpl.
  destruct (String.eqb_spec (sub_id x) (sub_id d)) as [Heq | Hne].
  - exfalso. apply Hd. rewrite <- Heq. simpl. left.
  - f_equal. apply IH. intros Hin. apply Hd. simpl. right. exact Hin.
Qed.

Lemma unique_id (coll : list SubmissionDoc) (a b : SubmissionDoc) :
  NoDup (map sub_id coll) -> In a coll -> In b coll ->
  sub_id a = sub_id b -> a = b.
Proof.
  induction coll as [| d rest IH]; intros Hnodup Ha Hb Hid; [destruct Ha |].
  simpl in Hnodup. apply NoDup_cons in Hnodup as [Hd Hnodup].
  assert (Hin : forall x, In x rest -> sub_id x ∈ map sub_id rest).
  { intros x Hx. apply list_elem_of_In, in_map, Hx. }
  destruct Ha as [<- | Ha], Hb as [<- | Hb]; [reflexivity | | | auto].
  - exfalso. apply Hd. rewrite Hid. auto.
  - exfalso. apply Hd. rewrite <- Hid. auto.
Qed.

Lemma handle_in_step (cfg : Config) (env : Env) (st : Store) (req : Request) :
  in_step st -> in_step (handle cfg env st req).
Proof.
  intros [Hnodup Hstep].
  assert (Hsame : submissions (handle cfg env st req) = submissions st ->
                  evaluations (handle cfg env st req) = evaluations st ->
                  in_step (handle cfg env st req)).
  { intros Hs He. unfold in_step, evaluations_of. rewrite Hs, He.
    split; assumption. }
  destruct req; try (apply Hsame; reflexivity).
  - apply Hsame; simpl; unfold create_category;
      destruct (find_one _ _); reflexivity.
  - apply Hsame; simpl;
      destruct (create_submission_with_answers_raises env st submission_data)
        as [e ->]; reflexivity.
  - destruct (create_evaluation_store cfg env st evaluation_data)
      as [-> | (submission & score & Hfind & _ & ->)]; [split; assumption |].
    set (evaluation := new_evaluation env evaluation_data score).
    unfold in_step. simpl submissions.
    rewrite (update_one_unique_id _ _ _ Hnodup). split.
    + rewrite map_map.
      erewrite map_ext; [exact Hnodup |].
      intros s. destruct (String.eqb _ _); reflexivity.
    + intros s' Hs'. apply in_map_iff in Hs' as [s [<- Hs]].
      rewrite (evaluations_of_app st _ evaluation); [| reflexivity].
      apply find_some in Hfind as [Hsub Hid]. apply String.eqb_eq in Hid.
      destruct (String.eqb_spec (sub_id s) (ec_submission_id evaluation_data))
        as [Heq | Hne]; simpl.
      * assert (s = submission) as ->
          by (apply (unique_id _ _ _ Hnodup Hs Hsub); congruence).
        rewrite Heq, String.eqb_refl, <- Heq, (Hstep _ Hsub). reflexivity.
      * rewrite (proj2 (String.eqb_neq _ _)) by congruence.
        rewrite app_nil_r. apply Hstep, Hs.
Qed.

(** When submission ids are pairwise distinct and each submission embeds
    the evaluations the evaluations collection holds for its id, this
    stays so through every sequence of requests; a read of a submission
    then counts the evaluations that are embedded in it. *)
Theorem stores_stay_in_step (cfg : Config) (st : Store)
    (reqs : list (Env * Request)) :
  in_step st ->
  in_step (run cfg st reqs) /\
  (forall env submission_id response,
     get_submission env (run cfg st reqs) submission_id = Ok response ->
     exists s,
       find_one (fun s => String.eqb (sub_id s) submission_id)
         (submissions (run cfg st reqs)) = Some s /\
       sr_evaluation_count (swa_base response)
       = length (sub_evaluations s)).
Proof.
  intros Hstep.
  assert (Hrun : in_step (run cfg st reqs)).
  { revert st Hstep. induction reqs as [| [env req] reqs IH]; intros st Hstep;
      [exact Hstep |].
    rewrite run_cons. apply IH, handle_in_step, Hstep. }
  split; [exact Hrun |].
  intros env submission_id response Hget. unfold get_submission in Hget.
  destruct (find_one _ (submissions _)) as [s |] eqn:Hfind; [| discriminate].
  simpl in Hget.
  destruct (find_one _ (categories _)); [| discriminate]. simpl in Hget.
  destruct (Category_init _); [| discriminate]. simpl in Hget.
  injection Hget as <-. exists s. split; [reflexivity |]. simpl.
  apply find_some in Hfind as [Hin Hid]. apply String.eqb_eq in Hid.
  rewrite <- Hid, (proj2 Hrun s Hin). reflexivity.
Qed.

Lemma stores_stay_in_step_witness :
  in_step (run config_of_five (sample_store [] None) sample_requests).
Proof.
  apply (stores_stay_in_step config_of_five (sample_store [] None)
           sample_requests).
  split; [apply NoDup_singleton |].
  intros s [<- | []]. reflexivity.
Defined.

Lemma Forall_update_one {A : Type} (Q : A -> Prop) (P : A -> bool)
    (set : A -> A) (coll : list A) :
  Forall Q coll -> (forall d, Q (set d)) -> Forall Q (update_one P set coll).
Proof.
  intros Hall Hset. induction Hall as [| d rest Hd Hrest IH]; simpl;
    [constructor |].
  destruct (P d); constructor; auto.
Qed.

Lemma handle_scores (cfg : Config) (env : Env) (st : Store) (req : Request) :
  Forall score_in_step (submissions st) ->
  Forall score_in_step (submissions (handle cfg env st req)).
Proof.
  intros Hall. destruct req; try exact Hall.
  - simpl. unfold create_category. destruct (find_one _ _); exact Hall.
  - simpl.
    destruct (create_submission_with_answers_raises env st submission_data)
      as [e ->]. exact Hall.
  - destruct (create_evaluation_store cfg env st evaluation_data)
      as [-> | (submission & score & _ & _ & ->)]; [exact Hall |].
    simpl. apply Forall_update_one; [exact Hall |].
    intros d. right. reflexivity.
Qed.

(** When the score of every submission is null or the aggregate of the
    evaluations embedded in it, this stays so through every sequence of
    requests: no request leaves a score that its evaluations do not
    account for. *)
Theorem scores_stay_aggregates (cfg : Config) (st : Store)
    (reqs : list (Env * Request)) :
  Forall score_in_step (submissions st) ->
  Forall score_in_step (submissions (run cfg st reqs)).
Proof.
  revert st. induction reqs as [| [env req] reqs IH]; intros st Hall;
    [exact Hall |].
  rewrite run_cons. apply IH, handle_scores, Hall.
Qed.

Lemma scores_stay_aggregates_witness :
  Forall score_in_step
    (submissions (run config_of_five (sample_store [] None) sample_requests)).
Proof.
  apply (scores_stay_aggregates config_of_five (sample_store [] None)
           sample_requests).
  repeat constructor.
Defined.

(** ** Reads of a submission *)

(** A project registry whose fetch fails does not make the read of a
    submission fail: an error of the read with such a registry is an error
    of the read with any registry, and a read that succeeds with some
    registry succeeds with the failing one, with the same fields and
    answers and no registry data. *)
Theorem submission_read_without_registry (env env' : Env) (st : Store)
    (submission_id : string) :
  (forall karma_gap_id, get_karma_data env' karma_gap_id = None) ->
  (forall e, get_submission env' st submission_id = Raise e ->
             get_submission env st submission_id = Raise e) /\
  (forall response,
     get_submission env st submission_id = Ok response ->
     get_submission env' st submission_id
     = Ok {| swa_base := swa_base response;
             swa_answers := swa_answers response;
             swa_karma_data := None |}).
Proof.
  intros Hfails. unfold get_submission.
  destruct (find_one _ (submissions st)) as [s |]; simpl;
    [| split; [auto | discriminate]].
  destruct (find_one _ (categories st)) as [category |]; simpl;
    [| split; [auto | discriminate]].
  destruct (Category_init category) as [c |]; simpl;
    [| split; [auto | discriminate]].
  split; [discriminate |].
  intros response [= <-]. simpl. rewrite Hfails. reflexivity.
Qed.

(** The sample read with a registry that answers and with one whose fetch
    fails. *)
Lemma submission_read_without_registry_witness :
  exists response,
    get_submission other_env (sample_store [] None) "s1" = Ok response /\
    swa_karma_data response = Some "registry data" /\
    get_submission sample_env (sample_store [] None) "s1"
    = Ok {| swa_base := swa_base response;
            swa_answers := swa_answers response;
            swa_karma_data := None |}.
Proof.
  destruct (submission_read_without_registry other_env sample_env
              (sample_store [] None) "s1" (fun _ => eq_refl)) as [_ H].
  eexists. split; [vm_compute; reflexivity |].
  split; [reflexivity |]. apply H. vm_compute. reflexivity.
Defined.

(** A submission whose category snapshot has a slug that no stored
    category has cannot be read (404); creating the category through
    [POST /category] does not make it readable: the read then ends in a
    validation error, because the created category has no evaluators. *)
Theorem api_category_submission_unreadable (env : Env) (st : Store)
    (category : CategoryCreate) (submission : SubmissionDoc) :
  (forall c, In c (categories st) -> cat_slug c <> cc_slug category) ->
  find_one (fun s => String.eqb (sub_id s) (sub_id submission))
    (submissions st) = Some submission ->
  cat_slug (sub_category submission) = cc_slug category ->
  get_submission env st (sub_id submission)
  = Raise (HTTPException 404 "Category not found") /\
  get_submission env (snd (create_category st category)) (sub_id submission)
  = Raise (ValidationError "evaluators").
Proof.
  intros Hfree Hfind Hslug.
  assert (Hst : snd (create_category st category)
                = set_categories st
                    (categories st
                     ++ [ {| cat_name := cc_name category;
                             cat_description := cc_description category;
                             cat_slug := cc_slug category;
                             cat_evaluators := None |} ])).
  { unfold create_category. rewrite (find_one_slug_none _ _ Hfree).
    reflexivity. }
  rewrite Hst. unfold get_submission. simpl. rewrite Hfind. simpl.
  rewrite Hslug, (find_one_slug_none _ _ Hfree). simpl.
  split; [reflexivity |].
  rewrite find_one_app_new;
    [reflexivity | apply find_one_slug_none, Hfree | apply String.eqb_refl].
Qed.

Lemma api_category_submission_unreadable_witness :
  get_submission sample_env
    (snd (create_category
            {| categories := []; submissions := [sample_submission [] None];
               questions := []; evaluations := [] |}
            {| cc_name := "Climate"; cc_description := None;
               cc_slug := "climate" |})) "s1"
  = Raise (ValidationError "evaluators").
Proof.
  apply (api_category_submission_unreadable sample_env
           {| categories := []; submissions := [sample_submission [] None];
              questions := []; evaluations := [] |}
           {| cc_name := "Climate"; cc_description := None;
              cc_slug := "climate" |}
           (sample_submission [] None)).
  - intros c [].
  - reflexivity.
  - reflexivity.
Defined.



(** ** The nonce registry *)

(** Cleaning the registry only removes entries: what is left is part of
    the registry, with the expiries it had; cleaning twice at the same time
    is cleaning once; and an issuance grows the registry by at most one
    entry. *)
Theorem clean_nonces_only_removes (now : float) (nonces : gmap string float) :
  Onchain._clean_nonces now nonces ⊆ nonces /\
  Onchain._clean_nonces now (Onchain._clean_nonces now nonces)
  = Onchain._clean_nonces now nonces /\
  (forall n e, Onchain._clean_nonces now nonces !! n = Some e ->
               (e <? now)%float = false) /\
  (forall cfg now_store uuid_hex,
     size (snd (Onchain._new_nonce cfg now now_store uuid_hex nonces))
     <= S (size nonces))%nat.
Proof.
  assert (Hsub : Onchain._clean_nonces now nonces ⊆ nonces).
  { apply map_subseteq_spec. intros n e. rewrite clean_nonces_lookup.
    destruct (nonces !! n) as [e' |]; [| discriminate].
    destruct (e' <? now)%float; [discriminate | auto]. }
  split; [exact Hsub |]. split; [| split].
  - apply map_eq. intros n. rewrite !clean_nonces_lookup.
    destruct (nonces !! n) as [e |]; [| reflexivity].
    destruct (e <? now)%float eqn:He; [reflexivity | rewrite He; reflexivity].
  - intros n e. rewrite clean_nonces_lookup.
    destruct (nonces !! n) as [e' |]; [| discriminate].
    destruct (e' <? now)%float eqn:He; [discriminate |].
    intros [= <-]. exact He.
  - intros cfg now_store uuid_hex. unfold Onchain._new_nonce. cbn [snd].
    rewrite map_size_insert. apply map_subseteq_size in Hsub.
    destruct (_ !! uuid_hex); unfold id; lia.
Qed.

(** ** Seeding the question catalog *)

Lemma imap_questions (uuid4 oid : nat -> string) (data : list QuestionData) :
  forall k,
  map q_id
    (imap (fun i question_data =>
             {| q_oid := oid (k + i)%nat; q_id := uuid4 (k + i)%nat;
                q_project_statement := qd_project_statement question_data;
                q_project_description := qd_project_description question_data;
                q_evaluator_statement := qd_evaluator_statement question_data;
                q_evaluator_description :=
                  qd_evaluator_description question_data;
                q_section := qd_section question_data;
                q_order := qd_order question_data |}) data)
  = map uuid4 (seq k (length data)) /\
  map q_project_statement
    (imap (fun i question_data =>
             {| q_oid := oid (k + i)%nat; q_id := uuid4 (k + i)%nat;
                q_project_statement := qd_project_statement question_data;
                q_project_description := qd_project_description question_data;
                q_evaluator_statement := qd_evaluator_statement question_data;
                q_evaluator_description :=
                  qd_evaluator_description question_data;
                q_section := qd_section question_data;
                q_order := qd_order question_data |}) data)
  = map qd_project_statement data.
Proof.
  induction data as [| d data IH]; intros k; [split; reflexivity |].
  simpl. rewrite Nat.add_0_r. destruct (IH (S k)) as [Hid Hst].
  split; f_equal.
  - rewrite <- Hid. f_equal. apply imap_ext. intros i x _. simpl.
    rewrite Nat.add_succ_r. reflexivity.
  - rewrite <- Hst. f_equal. apply imap_ext. intros i x _. simpl.
    rewrite Nat.add_succ_r. reflexivity.
Qed.

(** Seeding never removes or changes a stored question: the catalog it
    finds is a prefix of the catalog it leaves.  A catalog that holds a
    question is left as it is, whatever the file, and so is any catalog
    when the file cannot be read; seeding again from the same file changes
    nothing.  On an empty catalog the questions of the file are stored in
    the order of the file, as many as the file has: the [k]-th document has
    the [k]-th id drawn, the [k]-th key of the store, and the six fields of
    the [k]-th entry of the file unchanged. *)
Theorem seeding_only_fills_empty_catalog (uuid4 oid uuid4' oid' : nat -> string)
    (file : option (list QuestionData)) (catalog : list QuestionDoc) :
  (catalog <> [] -> load_questions_from_json uuid4 oid file catalog = catalog) /\
  load_questions_from_json uuid4' oid' file
    (load_questions_from_json uuid4 oid file catalog)
  = load_questions_from_json uuid4 oid file catalog /\
  (forall data,
     map q_id (load_questions_from_json uuid4 oid (Some data) [])
     = map uuid4 (seq 0 (length data)) /\
     map q_project_statement (load_questions_from_json uuid4 oid (Some data) [])
     = map qd_project_statement data) /\
  (forall data,
     length (load_questions_from_json uuid4 oid (Some data) []) = length data /\
     (forall k question_data,
        data !! k = Some question_data ->
        load_questions_from_json uuid4 oid (Some data) [] !! k
        = Some {| q_oid := oid k; q_id := uuid4 k;
                  q_project_statement := qd_project_statement question_data;
                  q_project_description :=
                    qd_project_description question_data;
                  q_evaluator_statement :=
                    qd_evaluator_statement question_data;
                  q_evaluator_description :=
                    qd_evaluator_description question_data;
                  q_section := qd_section question_data;
                  q_order := qd_order question_data |}) /\
     (forall k question,
        load_questions_from_json uuid4 oid (Some data) [] !! k = Some question ->
        exists question_data,
          data !! k = Some question_data /\
          q_id question = uuid4 k /\ q_oid question = oid k /\
          q_project_statement question = qd_project_statement question_data /\
          q_project_description question
          = qd_project_description question_data /\
          q_evaluator_statement question
          = qd_evaluator_statement question_data /\
          q_evaluator_description question
          = qd_evaluator_description question_data /\
          q_section question = qd_section question_data /\
          q_order question = qd_order question_data)) /\
  load_questions_from_json uuid4 oid None catalog = catalog /\
  catalog `prefix_of` load_questions_from_json uuid4 oid file catalog.
Proof.
  assert (Hkeep : forall u o f c, c <> [] ->
                    load_questions_from_json u o f c = c).
  { intros u o f c Hc. unfold load_questions_from_json.
    destruct f; [| reflexivity]. destruct c; [contradiction | reflexivity]. }
  assert (Hfill : forall data,
            load_questions_from_json uuid4 oid (Some data) []
            = imap (fun k question_data =>
                      {| q_oid := oid k; q_id := uuid4 k;
                         q_project_statement :=
                           qd_project_statement question_data;
                         q_project_description :=
                           qd_project_description question_data;
                         q_evaluator_statement :=
                           qd_evaluator_statement question_data;
                         q_evaluator_description :=
                           qd_evaluator_description question_data;
                         q_section := qd_section question_data;
                         q_order := qd_order question_data |}) data).
  { intros data. unfold load_questions_from_json. simpl.
    destruct data; reflexivity. }
  split; [apply Hkeep |]. split; [| split; [| split; [| split]]].
  - destruct catalog as [| q catalog].
    + destruct file as [[| d data] |]; reflexivity.
    + rewrite (Hkeep uuid4 oid file (q :: catalog)) by discriminate.
      apply Hkeep. discriminate.
  - intros data. rewrite Hfill. apply (imap_questions uuid4 oid data 0).
  - intros data. rewrite Hfill. split; [apply length_imap |]. split.
    + intros k question_data Hk. rewrite list_lookup_imap, Hk. reflexivity.
    + intros k question Hk. rewrite list_lookup_imap in Hk.
      destruct (data !! k) as [question_data |]; [| discriminate].
      simpl in Hk. injection Hk as <-. exists question_data.
      repeat split; reflexivity.
  - reflexivity.
  - unfold load_questions_from_json. destruct file as [data |]; [| reflexivity].
    destruct (0 <? length catalog)%nat; [reflexivity |].
    destruct (imap _ data); [reflexivity |]. apply prefix_app_r. reflexivity.
Qed.

(** Two questions are seeded into an empty catalog, the second stored under
    the second id drawn with the fields of the file; a second seeding,
    from another file, finds the catalog filled. *)
Lemma seeding_only_fills_empty_catalog_witness :
  map q_id
    (load_questions_from_json (uuid4 other_env) (uuid4 sample_env)
       (Some [sample_question_data "third"])
       (load_questions_from_json (uuid4 sample_env) (uuid4 other_env)
          (Some [sample_question_data "first"; sample_question_data "second"])
          []))
  = ["a-uuid"; "b-uuid"] /\
  load_questions_from_json (uuid4 sample_env) (uuid4 other_env)
    (Some [sample_question_data "first"; sample_question_data "second"]) []
  !! 1%nat
  = Some {| q_oid := "B-uuid"; q_id := "b-uuid";
            q_project_statement := "second"; q_project_description := None;
            q_evaluator_statement := "second";
            q_evaluator_description := None;
            q_section := "s"; q_order := 1 |}.
Proof.
  destruct (seeding_only_fills_empty_catalog (uuid4 other_env)
              (uuid4 sample_env) (uuid4 sample_env) (uuid4 other_env)
              (Some [sample_question_data "third"])
              (load_questions_from_json (uuid4 sample_env) (uuid4 other_env)
                 (Some [sample_question_data "first";
                        sample_question_data "second"]) []))
    as [Hkeep _].
  split; [rewrite Hkeep; [reflexivity | discriminate] |].
  destruct (seeding_only_fills_empty_catalog (uuid4 sample_env)
              (uuid4 other_env) (uuid4 sample_env) (uuid4 other_env)
              None [])
    as (_ & _ & _ & Hfill & _).
  destruct (Hfill [sample_question_data "first"; sample_question_data "second"])
    as (_ & Hlookup & _).
  apply (Hlookup 1%nat (sample_question_data "second")). reflexivity.
Defined.

(** ** Categories read back *)

(** After a successful category creation the category is found under its
    slug, with the fields of the response and the submissions whose
    snapshot has the slug; it is the last of the categories listed; and
    the same request, sent again, is refused and changes nothing. *)
Theorem created_category_reads_back (st : Store) (category : CategoryCreate)
    (response : CategoryRead) (st' : Store) :
  create_category st category = (Ok response, st') ->
  (exists listing,
     get_category_by_slug st' (cc_slug category) = Ok listing /\
     crs_base listing = response /\
     map sr_id (crs_submissions listing)
     = map sub_id
         (List.filter
            (fun s => String.eqb (cat_slug (sub_category s)) (cc_slug category))
            (submissions st))) /\
  get_categories st'
  = Ok (map CategoryRead_of_doc (categories st) ++ [response]) /\
  (exists detail,
     create_category st' category = (Raise (HTTPException 400 detail), st')).
Proof.
  unfold create_category.
  destruct (find_one _ (categories st)) eqn:Hfind; [discriminate |].
  intros [= <- <-].
  assert (Hnew : find_one
                   (fun c => String.eqb (cat_slug c) (cc_slug category))
                   (categories st
                    ++ [ {| cat_name := cc_name category;
                            cat_description := cc_description category;
                            cat_slug := cc_slug category;
                            cat_evaluators := None |} ])
                 = Some {| cat_name := cc_name category;
                           cat_description := cc_description category;
                           cat_slug := cc_slug category;
                           cat_evaluators := None |}).
  { apply find_one_app_new; [exact Hfind | apply String.eqb_refl]. }
  split; [| split].
  - unfold get_category_by_slug. simpl. unfold insert_one. rewrite Hnew.
    simpl. eexists. split; [reflexivity |]. split; [reflexivity |].
    simpl. rewrite map_map. reflexivity.
  - unfold get_categories. simpl. unfold insert_one. rewrite map_app.
    reflexivity.
  - simpl. unfold insert_one. rewrite Hnew. eauto.
Qed.

Lemma created_category_reads_back_witness :
  exists response st',
    create_category (sample_store [] None)
      {| cc_name := "Water"; cc_description := None; cc_slug := "water" |}
    = (Ok response, st') /\
    get_categories st'
    = Ok (map CategoryRead_of_doc (categories (sample_store [] None))
          ++ [response]).
Proof.
  eexists _, _.
  assert (Hrun : create_category (sample_store [] None)
                   {| cc_name := "Water"; cc_description := None;
                      cc_slug := "water" |}
                 = (Ok _, _)) by reflexivity.
  split; [exact Hrun |].
  apply (created_category_reads_back _ _ _ _ Hrun).
Defined.

(** ** What the score does not look at *)

Lemma evaluation_score_codes (cfg : Config)
    (answers answers' : list EvaluationAnswerCreate) :
  map eac_answer answers = map eac_answer answers' ->
  forall acc,
    fold_left (score_step cfg) answers acc
    = fold_left (score_step cfg) answers' acc.
Proof.
  revert answers'. induction answers as [| a answers IH];
    intros [| a' answers'] Hcodes acc; try discriminate; [reflexivity |].
  simpl in *. injection Hcodes as Ha Hrest.
  unfold score_step at 2 4. rewrite Ha. apply IH, Hrest.
Qed.

(** The score of an evaluation depends on the sequence of answer codes
    only: the question ids play no part, so answers to unknown questions
    and several answers to one question count like any other, and the
    evaluator and the stored evaluations play no part either. *)
Theorem score_depends_on_codes_only (cfg : Config)
    (answers answers' : list EvaluationAnswerCreate) :
  map eac_answer answers = map eac_answer answers' ->
  evaluation_score cfg answers = evaluation_score cfg answers' /\
  calculated_score cfg answers = calculated_score cfg answers'.
Proof.
  intros Hcodes.
  assert (H : evaluation_score cfg answers = evaluation_score cfg answers')
    by (apply evaluation_score_codes, Hcodes).
  split; [exact H |]. unfold calculated_score. rewrite H. reflexivity.
Qed.

(** Two answers to one question score as answers to two questions do. *)
Lemma score_depends_on_codes_only_witness :
  calculated_score example_config
    [ {| eac_question_id := "q1"; eac_answer := "1" |};
      {| eac_question_id := "q1"; eac_answer := "1" |} ]
  = calculated_score example_config (map answer_of ["1"; "1"]).
Proof.
  apply (score_depends_on_codes_only example_config
           [ {| eac_question_id := "q1"; eac_answer := "1" |};
             {| eac_question_id := "q1"; eac_answer := "1" |} ]
           (map answer_of ["1"; "1"])).
  reflexivity.
Defined.


